(** * GNOME2 movement engine: wind mover, tidal station wrapper, base mover.

    Shallow embedding of
      - [py_gnome/gnome/cy_gnome/cy_wind_mover.pyx]  (class [CyWindMover]),
      - [Mover_c.cpp]                                 (class [Mover_c]),
      - the Cython wrapper of [ShioTimeValue_c]       (class [CyShioTime]),
      - [CATSMover_c.h]                               (class [CATSMover_c]).

    Conventions.  A C [double] is carried as an exact rational ([Q]); the
    development only stores, copies and compares such values, and evaluates
    arithmetic on them at inputs where binary64 is exact.  C integers
    ([long], [short], [OSErr], [Seconds]) are [Z]; a Python number handed
    to a C member or parameter is taken to be in the range of its type.  A
    Python call either returns a value or raises: type [outcome]; a method
    also returns the object as the call leaves it. *)

From Stdlib Require Import ZArith QArith Qabs List String Ascii Bool Lia.
Import ListNotations.

Local Open Scope Z_scope.

(** ** Shared C type definitions ([TypeDefs.h], as used by the sources) *)

Module TypeDefs.

Definition OSErr := Z.
Definition noErr : OSErr := 0.

Definition Seconds := Z.
Definition Boolean := bool.

(** [LEType] / [LETYPE] is a C enumeration received as an integer: the two
    spill types the wrapper names in its error message, and any other raw
    value. *)
Inductive LEType : Type :=
| FORECAST_LE
| UNCERTAINTY_LE
| LEType_other (raw : Z).

Record VelocityRec := mkVelocityRec { u : Q; v : Q }.

Record WorldPoint := mkWorldPoint { pLong : Q; pLat : Q }.

Record WorldPoint3D := mkWorldPoint3D { p : WorldPoint; z : Q }.

Record WorldRect := mkWorldRect
  { loLong : Q; loLat : Q; hiLong : Q; hiLat : Q }.

Definition zeroVelocity : VelocityRec := {| u := 0%Q; v := 0%Q |}.

Definition zeroPoint3D : WorldPoint3D :=
  {| p := {| pLong := 0%Q; pLat := 0%Q |}; z := 0%Q |}.

(** The fields of [LERec] that the embedded code reads. *)
Record LERec := mkLERec { le_p : WorldPoint; le_z : Q; le_windage : Q }.

End TypeDefs.

Import TypeDefs.

(** ** Python-level outcomes *)

Inductive PyExc : Type :=
| ValueError (msg : string)
| IOError (msg : string)
| OSError (msg : string)
| IndexError.

Inductive outcome (A : Type) : Type :=
| Return (a : A)
| Raise (e : PyExc).

Arguments Return {A} a.
Arguments Raise {A} e.

Definition bind {A B : Type} (c : outcome A) (k : A -> outcome B) : outcome B :=
  match c with
  | Return a => k a
  | Raise e => Raise e
  end.

Notation "x <- c ;; k" := (bind c (fun x => k))
  (at level 61, c at next level, right associativity).

Definition raises {A : Type} (c : outcome A) : Prop :=
  exists e, c = Raise e.

Definition returns {A : Type} (c : outcome A) : Prop :=
  exists a, c = Return a.

(** ** [Mover_c] (Mover_c.cpp) *)

Module Mover_c.

(** The scalar members the constructor initialises.  The name and the
    owning map are installed by [SetMoverName] / [SetMoverMap], which are
    defined outside [Mover_c.cpp]. *)
Record t := mk
  { bActive : Boolean;
    bOpen : Boolean;
    fUncertainStartTime : Q;
    fDuration : Q;
    fTimeUncertaintyWasSet : Q }.

(** [Mover_c::Mover_c(TMap *owner, char *name)] *)
Definition new : t :=
  {| bActive := true;
     bOpen := false;
     fUncertainStartTime := 0%Q;
     fDuration := 0%Q;
     fTimeUncertaintyWasSet := 0%Q |}.

(** [OSErr Mover_c::UpdateUncertainty(void)] *)
Definition UpdateUncertainty (self : t) : OSErr := 0.

(** [WorldPoint3D Mover_c::GetMove(start_time, stop_time, model_time,
    timeStep, setIndex, leIndex, theLE, leType)] *)
Definition GetMove (self : t)
    (start_time stop_time model_time timeStep : Seconds)
    (setIndex leIndex : Z) (theLE : LERec) (leType : LEType)
  : WorldPoint3D :=
  let theLE3D_pLat := pLat (le_p theLE) in
  let theLE3D_pLong := pLong (le_p theLE) in
  let theLE3D_z := le_z theLE in
  {| p := {| pLong := theLE3D_pLong; pLat := theLE3D_pLat |};
     z := theLE3D_z |}.

End Mover_c.


(** ** The shared mover lifecycle *)

(** Modelled from the spec: the parameters of the current step recorded by
    [PrepareForModelStep] (section 4.4); the C++ members holding them are
    not part of the sources. *)
Record StepInfo := mkStepInfo
  { uncertain : bool; numSets : Z; setSizes : list Z }.

(** Modelled from the spec: the lifecycle states of section 4.4. *)
Inductive Lifecycle : Type :=
| Uninitialized
| RunReady
| StepReady (step : StepInfo).

(** ** The C++ wind mover as the wrapper sees it *)

Module WindMover_c.

(** A time-series provider handle ([ossm.time_dep], an [OSSMTimeValue_c *]),
    characterised by what its [GetTimeValue(time, &value)] answers. *)
Definition OSSMTimeValue_c : Type := Seconds -> OSErr * VelocityRec.

(** Modelled from the spec: the per-set uncertainty state of section 3,
    [(currentOffset, lastRefreshTime)]; the C++ member list is not part of
    the sources. *)
Record UncertainRec := mkUncertainRec
  { currentOffset : VelocityRec; lastRefreshTime : Seconds }.

(** The members the wrapper reads and writes ([fIsConstantWind] ...
    [fAngleScale], and [timeDep] through [SetTimeDep]), followed by the
    engine state of the spec ([lifecycle], [fUncertainty]). *)
Record t := mk
  { fIsConstantWind : Boolean;
    fConstantValue : VelocityRec;
    fDuration : Q;
    fUncertainStartTime : Q;
    fSpeedScale : Q;
    fAngleScale : Q;
    timeDep : option OSSMTimeValue_c;
    lifecycle : Lifecycle;
    fUncertainty : list UncertainRec }.

Definition set_fIsConstantWind (m : t) (b : Boolean) : t :=
  mk b (fConstantValue m) (fDuration m) (fUncertainStartTime m)
     (fSpeedScale m) (fAngleScale m) (timeDep m) (lifecycle m) (fUncertainty m).

Definition set_fConstantValue (m : t) (w : VelocityRec) : t :=
  mk (fIsConstantWind m) w (fDuration m) (fUncertainStartTime m)
     (fSpeedScale m) (fAngleScale m) (timeDep m) (lifecycle m) (fUncertainty m).

Definition set_fDuration (m : t) (x : Q) : t :=
  mk (fIsConstantWind m) (fConstantValue m) x (fUncertainStartTime m)
     (fSpeedScale m) (fAngleScale m) (timeDep m) (lifecycle m) (fUncertainty m).

Definition set_fUncertainStartTime (m : t) (x : Q) : t :=
  mk (fIsConstantWind m) (fConstantValue m) (fDuration m) x
     (fSpeedScale m) (fAngleScale m) (timeDep m) (lifecycle m) (fUncertainty m).

Definition set_fSpeedScale (m : t) (x : Q) : t :=
  mk (fIsConstantWind m) (fConstantValue m) (fDuration m) (fUncertainStartTime m)
     x (fAngleScale m) (timeDep m) (lifecycle m) (fUncertainty m).

Definition set_fAngleScale (m : t) (x : Q) : t :=
  mk (fIsConstantWind m) (fConstantValue m) (fDuration m) (fUncertainStartTime m)
     (fSpeedScale m) x (timeDep m) (lifecycle m) (fUncertainty m).

Definition set_timeDep (m : t) (d : option OSSMTimeValue_c) : t :=
  mk (fIsConstantWind m) (fConstantValue m) (fDuration m) (fUncertainStartTime m)
     (fSpeedScale m) (fAngleScale m) d (lifecycle m) (fUncertainty m).

Definition set_lifecycle (m : t) (l : Lifecycle) : t :=
  mk (fIsConstantWind m) (fConstantValue m) (fDuration m) (fUncertainStartTime m)
     (fSpeedScale m) (fAngleScale m) (timeDep m) l (fUncertainty m).

Definition set_fUncertainty (m : t) (us : list UncertainRec) : t :=
  mk (fIsConstantWind m) (fConstantValue m) (fDuration m) (fUncertainStartTime m)
     (fSpeedScale m) (fAngleScale m) (timeDep m) (lifecycle m) us.

(** The C++ methods the wrapper calls ([from movers cimport WindMover_c]);
    their bodies are not part of the wrapper.  [get_move] receives the
    arrays and returns the error code, the [delta] array as it leaves it,
    and the mover. *)
Record api := mkApi
  { new : t;
    PrepareForModelRun : t -> t;
    PrepareForModelStep :
      t -> Seconds -> Seconds -> bool -> Z -> list Z -> OSErr * t;
    ModelStepIsDone : t -> t;
    get_move :
      t -> Z -> Seconds -> Seconds -> list WorldPoint3D -> list WorldPoint3D ->
      list Q -> list Z -> LEType -> Z -> OSErr * list WorldPoint3D * t;
    SetTimeDep : t -> OSSMTimeValue_c -> t;
    GetTimeValue : t -> Seconds -> OSErr * VelocityRec }.

End WindMover_c.

(** ** [CyWindMover] (cy_wind_mover.pyx) *)

Module CyWindMover.

Import WindMover_c.

(** [cdef WindMover_c *mover] *)
Record t := mk { mover : WindMover_c.t }.

Section Wrapper.

Variable cpp : WindMover_c.api.

(** [__cinit__]: [self.mover = new WindMover_c()] *)
Definition __cinit__ : t := {| mover := new cpp |}.

(** [__init__(self, uncertain_duration=10800, uncertain_time_delay=0,
    uncertain_speed_scale=2, uncertain_angle_scale=0.4)] *)
Definition __init__ (self : t)
    (uncertain_duration uncertain_time_delay
     uncertain_speed_scale uncertain_angle_scale : Q) : t :=
  let m := mover self in
  let m := set_fIsConstantWind m true in
  let m := set_fConstantValue m {| u := 0%Q; v := v (fConstantValue m) |} in
  let m := set_fConstantValue m {| u := u (fConstantValue m); v := 0%Q |} in
  let m := set_fDuration m uncertain_duration in
  let m := set_fUncertainStartTime m uncertain_time_delay in
  let m := set_fSpeedScale m uncertain_speed_scale in
  let m := set_fAngleScale m uncertain_angle_scale in
  {| mover := m |}.

(** [CyWindMover()] with the default arguments. *)
Definition create : t := __init__ __cinit__ 10800%Q 0%Q 2%Q (4 # 10)%Q.

(** *** Properties *)

Definition uncertain_duration_get (self : t) : Q := fDuration (mover self).

Definition uncertain_duration_set (self : t) (value : Q) : outcome unit * t :=
  (Return tt, {| mover := set_fDuration (mover self) value |}).

Definition uncertain_time_delay_get (self : t) : Q :=
  fUncertainStartTime (mover self).

Definition uncertain_time_delay_set (self : t) (value : Q) : outcome unit * t :=
  (Return tt, {| mover := set_fUncertainStartTime (mover self) value |}).

Definition uncertain_speed_scale_get (self : t) : Q := fSpeedScale (mover self).

Definition uncertain_speed_scale_set (self : t) (value : Q) : outcome unit * t :=
  (Return tt, {| mover := set_fSpeedScale (mover self) value |}).

Definition uncertain_angle_scale_get (self : t) : Q := fAngleScale (mover self).

Definition uncertain_angle_scale_set (self : t) (value : Q) : outcome unit * t :=
  (Return tt, {| mover := set_fAngleScale (mover self) value |}).

(** *** Step lifecycle *)

Definition prepare_for_model_run (self : t) : outcome unit * t :=
  (Return tt, {| mover := PrepareForModelRun cpp (mover self) |}).

(** [prepare_for_model_step(self, model_time, step_len, numSets=0,
    setSizes=None)].  [&setSizes[0]] is bounds-checked: an empty array
    raises. *)
Definition prepare_for_model_step (self : t) (model_time step_len : Seconds)
    (numSets : Z) (setSizes : list Z) : outcome unit * t :=
  let finish (r : OSErr * WindMover_c.t) :=
    let (err, m) := r in
    if negb (err =? 0)
    then (Raise (OSError "WindMover_c.PreareForModelStep returned an error."),
          {| mover := m |})
    else (Return tt, {| mover := m |}) in
  if numSets =? 0
  then finish (PrepareForModelStep cpp (mover self) model_time step_len
                                   false 0 [])
  else match setSizes with
       | [] => (Raise IndexError, self)
       | _ :: _ =>
           finish (PrepareForModelStep cpp (mover self) model_time step_len
                                       true numSets setSizes)
       end.

Definition model_step_is_done (self : t) : outcome unit * t :=
  (Return tt, {| mover := ModelStepIsDone cpp (mover self) |}).

Definition is_empty {A : Type} (l : list A) : bool :=
  match l with [] => true | _ :: _ => false end.

(** [get_move(self, model_time, step_len, ref_points, delta, windages,
    LE_status, spill_type, spill_ID)].  The call modifies [delta] in place
    and returns [None]; the value returned here is [delta] after the call.
    Taking [&a[0]] of an empty array raises. *)
Definition get_move (self : t) (model_time step_len : Seconds)
    (ref_points delta : list WorldPoint3D) (windages : list Q)
    (LE_status : list Z) (spill_type : LEType) (spill_ID : Z)
  : outcome (list WorldPoint3D) * t :=
  let N := Z.of_nat (List.length ref_points) in
  if is_empty ref_points || is_empty delta || is_empty windages
     || is_empty LE_status
  then (Raise IndexError, self)
  else
    let '(err, delta', m) :=
      WindMover_c.get_move cpp (mover self) N model_time step_len ref_points
                           delta windages LE_status spill_type spill_ID in
    if err =? 1
    then (Raise (ValueError
            "Make sure numpy arrays for ref_points, delta and windages are defined"),
          {| mover := m |})
    else if err =? 2
    then (Raise (ValueError
            "The value for spill type can only be 'forecast' or 'uncertainty'"),
          {| mover := m |})
    else (Return delta', {| mover := m |}).

(** *** Wind source *)

Definition set_constant_wind (self : t) (windU windV : Q) : outcome unit * t :=
  let m := mover self in
  let m := set_fConstantValue m {| u := windU; v := v (fConstantValue m) |} in
  let m := set_fConstantValue m {| u := u (fConstantValue m); v := windV |} in
  let m := set_fIsConstantWind m true in
  (Return tt, {| mover := m |}).

Definition set_ossm (self : t) (ossm_time_dep : OSSMTimeValue_c)
  : outcome bool * t :=
  let m := SetTimeDep cpp (mover self) ossm_time_dep in
  let m := set_fIsConstantWind m false in
  (Return true, {| mover := m |}).

(** [get_time_value(self, modelTime)]: one [GetTimeValue] per requested
    time, [ValueError] at the first non-zero error code. *)
Fixpoint get_time_value_loop (m : WindMover_c.t) (modelTimeArray : list Seconds)
  : outcome (list VelocityRec) :=
  match modelTimeArray with
  | [] => Return []
  | t0 :: rest =>
      let (err, vel) := GetTimeValue cpp m t0 in
      if negb (err =? 0) then Raise (ValueError "")
      else vel_rec <- get_time_value_loop m rest ;; Return (vel :: vel_rec)
  end.

Definition get_time_value (self : t) (modelTime : list Seconds)
  : outcome (list VelocityRec) * t :=
  (get_time_value_loop (mover self) modelTime, self).

End Wrapper.

End CyWindMover.

(** ** The engine behind the wrapper, from the specification

    The bodies of [WindMover_c::PrepareForModelRun], [PrepareForModelStep],
    [ModelStepIsDone], [get_move] and [GetTimeValue] are not among the
    sources; they are written here after sections 4.3 to 4.5 and 7 of the
    specification. *)

(** Modelled from the spec: the failure taxonomy of section 7. *)
Inductive Failure : Type :=
| DataUnavailable
| InvalidArguments
| ReferencePointUnresolvable.

(** Modelled from the spec: a call of the engine, whose C++ body is not
    among the sources, yields a value or one of the failures of section 7. *)
Inductive result (A : Type) : Type :=
| Ok (a : A)
| Failed (f : Failure).

Arguments Ok {A} a.
Arguments Failed {A} f.

Module WindMoverEngine.

Import WindMover_c.

Section Engine.

(** The numeric [OSErr] a failure is reported with, the random refresh of the
    per-set offsets (section 4.3) and the test for a particle that is in the
    water are left open. *)
Variable errcode : Failure -> OSErr.
Variable refreshUncertainty : WindMover_c.t -> Seconds -> Z -> list UncertainRec.
Variable in_water : Z -> bool.

(** Modelled from the spec: the default-constructed [WindMover_c] (its
    constructor is missing), uninitialized in the lifecycle of section 4.4,
    with no provider and no uncertainty state. *)
Definition new : WindMover_c.t :=
  {| fIsConstantWind := false;
     fConstantValue := zeroVelocity;
     fDuration := 0%Q;
     fUncertainStartTime := 0%Q;
     fSpeedScale := 0%Q;
     fAngleScale := 0%Q;
     timeDep := None;
     lifecycle := Uninitialized;
     fUncertainty := [] |}.

(** Modelled from the spec: the missing [WindMover_c::PrepareForModelRun],
    section 4.4: idempotent, clears all per-set uncertainty state and leaves
    the mover run-ready. *)
Definition PrepareForModelRun (m : WindMover_c.t) : WindMover_c.t :=
  set_lifecycle (set_fUncertainty m []) RunReady.

(** Modelled from the spec: the "malformed step partition" of section 7,
    checked inside the missing [PrepareForModelStep]; a partition lists
    [numSets] non-negative sizes. *)
Definition well_formed_partition (numSets : Z) (setSizes : list Z) : bool :=
  (Z.of_nat (List.length setSizes) =? numSets)
  && forallb (fun s => 0 <=? s) setSizes.

(** Modelled from the spec: the missing [WindMover_c::PrepareForModelStep],
    sections 4.3, 4.4 and 7.  A failed call leaves the mover untouched. *)
Definition PrepareForModelStep (m : WindMover_c.t)
    (model_time step_len : Seconds) (uncertain : bool) (numSets : Z)
    (setSizes : list Z) : OSErr * WindMover_c.t :=
  match lifecycle m with
  | Uninitialized => (errcode InvalidArguments, m)
  | _ =>
      if step_len <=? 0 then (errcode InvalidArguments, m)
      else if uncertain && negb (well_formed_partition numSets setSizes)
      then (errcode InvalidArguments, m)
      else
        let us := if uncertain
                  then refreshUncertainty m model_time numSets
                  else fUncertainty m in
        (noErr,
         set_lifecycle (set_fUncertainty m us)
           (StepReady {| uncertain := uncertain; numSets := numSets;
                         setSizes := setSizes |}))
  end.

(** Modelled from the spec: the missing [WindMover_c::ModelStepIsDone],
    section 4.4. *)
Definition ModelStepIsDone (m : WindMover_c.t) : WindMover_c.t :=
  match lifecycle m with
  | StepReady _ => set_lifecycle m RunReady
  | _ => m
  end.

(** Modelled from the spec: the missing [WindMover_c::GetTimeValue], the
    deterministic component of section 4.5: the fixed pair in constant mode,
    otherwise the attached provider sampled at the model time. *)
Definition GetTimeValue (m : WindMover_c.t) (model_time : Seconds)
  : OSErr * VelocityRec :=
  if fIsConstantWind m then (noErr, fConstantValue m)
  else match timeDep m with
       | Some ossm => ossm model_time
       | None => (errcode InvalidArguments, zeroVelocity)
       end.

(** Modelled from the spec: the set a particle belongs to inside the
    missing [get_move]; [setSizes] cuts the particle array into contiguous
    groups (section 4.4). *)
Fixpoint set_of_particle (sizes : list Z) (i : Z) (k : nat) : option nat :=
  match sizes with
  | [] => None
  | s :: rest =>
      if i <? s then Some k else set_of_particle rest (i - s) (S k)
  end.

(** Modelled from the spec: the offset the missing [get_move] applies to
    particle [i] (sections 4.3 and 4.4), none when uncertainty is disabled
    for the step, otherwise the current offset of its set. *)
Definition offset_for (m : WindMover_c.t) (step : StepInfo) (i : Z)
  : option VelocityRec :=
  if uncertain step then
    match set_of_particle (setSizes step) i 0%nat with
    | Some k =>
        match nth_error (fUncertainty m) k with
        | Some r => Some (currentOffset r)
        | None => None
        end
    | None => None
    end
  else Some zeroVelocity.

(** Modelled from the spec: the displacement rule of the missing
    [get_move], section 4.5: (deterministic wind + offset) x stepLen. *)
Definition displacement (wind off : VelocityRec) (step_len : Seconds)
  : WorldPoint3D :=
  {| p := {| pLong := (u wind + u off) * inject_Z step_len;
             pLat := (v wind + v off) * inject_Z step_len |};
     z := 0%Q |}.

(** Modelled from the spec: the loop of the missing [get_move] over the
    particles [i, i+1, ...], one entry of [delta] each; a particle that is
    not in the water does not move. *)
Fixpoint move_all (m : WindMover_c.t) (step : StepInfo) (wind : VelocityRec)
    (step_len : Seconds) (i : Z) (LE_status : list Z)
  : option (list WorldPoint3D) :=
  match LE_status with
  | [] => Some []
  | s :: rest =>
      let d := if in_water s
               then option_map (fun off => displacement wind off step_len)
                               (offset_for m step i)
               else Some zeroPoint3D in
      match d, move_all m step wind step_len (i + 1) rest with
      | Some d0, Some ds => Some (d0 :: ds)
      | _, _ => None
      end
  end.

(** Modelled from the spec: the missing [WindMover_c::get_move], sections
    4.4 and 4.5, on the first [n] particles.  Code 2 is the wrapper's "spill
    type" error.  The mover is not changed. *)
Definition get_move (m : WindMover_c.t) (n : Z) (model_time step_len : Seconds)
    (ref delta : list WorldPoint3D) (windages : list Q) (LE_status : list Z)
    (spillType : LEType) (spill_ID : Z)
  : OSErr * list WorldPoint3D * WindMover_c.t :=
  match spillType with
  | LEType_other _ => (2, delta, m)
  | _ =>
      match lifecycle m with
      | StepReady step =>
          let (err, wind) := GetTimeValue m model_time in
          if negb (err =? 0) then (err, delta, m)
          else
            match move_all m step wind step_len 0
                           (firstn (Z.to_nat n) LE_status) with
            | Some moved =>
                (noErr, moved ++ skipn (List.length moved) delta, m)
            | None => (errcode InvalidArguments, delta, m)
            end
      | _ => (errcode InvalidArguments, delta, m)
      end
  end.

(** Modelled from the spec: [WindMover_c::SetTimeDep], whose body is
    missing, attaches the provider (section 4.5), as the inline
    [CATSMover_c::SetTimeDep] does: [timeDep = newTimeDep]. *)
Definition SetTimeDep (m : WindMover_c.t) (newTimeDep : OSSMTimeValue_c)
  : WindMover_c.t :=
  set_timeDep m (Some newTimeDep).

(** Modelled from the spec: the methods above, as the C++ class the
    wrapper drives. *)
Definition engine : WindMover_c.api :=
  {| WindMover_c.new := new;
     WindMover_c.PrepareForModelRun := PrepareForModelRun;
     WindMover_c.PrepareForModelStep := PrepareForModelStep;
     WindMover_c.ModelStepIsDone := ModelStepIsDone;
     WindMover_c.get_move := get_move;
     WindMover_c.SetTimeDep := SetTimeDep;
     WindMover_c.GetTimeValue := GetTimeValue |}.

End Engine.

End WindMoverEngine.

(** ** [CyShioTime], the wrapper of [ShioTimeValue_c] *)

Module CyShioTime.

(** A Python value that is either a record array or a plain integer. *)
Inductive pyobj (A : Type) : Type :=
| PyNdarray (rows : list A)
| PyInt (n : Z).

Arguments PyNdarray {A} rows.
Arguments PyInt {A} n.

Section Shio.

(** [EbbFloodData] and [HighLowData] are record types of [utils]; only
    arrays of them are copied here. *)
Variables EbbFloodData HighLowData : Type.

(** The members of [ShioTimeValue_c] the wrapper touches.  A handle is
    carried as the list of records it holds. *)
Record ShioTimeValue_c := mkShio
  { daylight_savings_off : bool;
    filePath : string;
    fScaleFactor : Q;
    fYearDataPath : string;
    fStationName : string;
    fStationType : ascii;
    fStationLocation : WorldPoint;
    fUserUnits : Z;
    fEbbFloodDataHdl : list EbbFloodData;
    fHighLowDataHdl : list HighLowData }.

Definition set_daylight_savings_off (s : ShioTimeValue_c) (b : bool) :=
  mkShio b (filePath s) (fScaleFactor s) (fYearDataPath s) (fStationName s)
         (fStationType s) (fStationLocation s) (fUserUnits s)
         (fEbbFloodDataHdl s) (fHighLowDataHdl s).

Definition set_fScaleFactor (s : ShioTimeValue_c) (x : Q) :=
  mkShio (daylight_savings_off s) (filePath s) x (fYearDataPath s)
         (fStationName s) (fStationType s) (fStationLocation s) (fUserUnits s)
         (fEbbFloodDataHdl s) (fHighLowDataHdl s).

Definition set_fUserUnits (s : ShioTimeValue_c) (units : Z) :=
  mkShio (daylight_savings_off s) (filePath s) (fScaleFactor s)
         (fYearDataPath s) (fStationName s) (fStationType s)
         (fStationLocation s) units
         (fEbbFloodDataHdl s) (fHighLowDataHdl s).

(** What the wrapper takes from its environment: the file system
    ([os.path.exists], [os.path.normpath]) and the C++ methods
    [new ShioTimeValue_c()], [ReadTimeValues], [SetUserUnits],
    [SetYearDataPath] and [GetTimeValue]. *)
Variable path_exists : string -> bool.
Variable normpath : string -> string.
Variable os_sep : ascii.
Variable ShioTimeValue_c_new : ShioTimeValue_c.
Variable ReadTimeValues : ShioTimeValue_c -> string -> OSErr * ShioTimeValue_c.
Variable SetUserUnits : ShioTimeValue_c -> Z -> ShioTimeValue_c.
Variable SetYearDataPath : ShioTimeValue_c -> string -> OSErr * ShioTimeValue_c.
Variable GetTimeValue :
  ShioTimeValue_c -> Seconds -> OSErr * VelocityRec * ShioTimeValue_c.

(** [cdef ShioTimeValue_c *shio] *)
Record t := mk { shio : ShioTimeValue_c }.

Definition __cinit__ : t := {| shio := ShioTimeValue_c_new |}.

(** [__init__(self, path_, daylight_savings_off=True, scale_factor=1)] *)
Definition __init__ (self : t) (path_ : string) (daylight_savings_off : bool)
    (scale_factor : Q) : outcome unit * t :=
  let s := set_daylight_savings_off (shio self) daylight_savings_off in
  if path_exists path_ then
    let path_ := normpath path_ in
    let file_ := path_ in
    let (err, s) := ReadTimeValues s file_ in
    if negb (err =? 0)
    then (Raise (ValueError
            "File could not be correctly read by ShioTimeValue_c.ReadTimeValues(...)"),
          {| shio := s |})
    else
      let s := SetUserUnits s (-1) in
      let s := set_fScaleFactor s scale_factor in
      (Return tt, {| shio := s |})
  else (Raise (IOError ("No such file: " ++ path_)), {| shio := s |}).

(** [CyShioTime(path_, daylight_savings_off, scale_factor)]: the object is
    handed out only when [__init__] returns. *)
Definition construct (path_ : string) (daylight_savings_off : bool)
    (scale_factor : Q) : outcome t :=
  match __init__ __cinit__ path_ daylight_savings_off scale_factor with
  | (Return _, self) => Return self
  | (Raise e, _) => Raise e
  end.

(** [s[-1]], for a non-empty string. *)
Fixpoint last_char (s : string) : option ascii :=
  match s with
  | EmptyString => None
  | String c EmptyString => Some c
  | String _ rest => last_char rest
  end.

(** [set_shio_yeardata_path(self, yeardata_path_)]: a trailing separator is
    added when missing; [yeardata_path[-1]] of an empty string raises. *)
Definition set_shio_yeardata_path (self : t) (yeardata_path_ : string)
  : outcome unit * t :=
  let yeardata_path := yeardata_path_ in
  if path_exists yeardata_path then
    let yeardata_path :=
      match last_char yeardata_path with
      | None => None
      | Some c =>
          if negb (Ascii.eqb c os_sep)
          then Some (normpath yeardata_path ++ String os_sep EmptyString)%string
          else Some yeardata_path
      end in
    match yeardata_path with
    | None => (Raise IndexError, self)
    | Some yeardata_path =>
        let (err, s) := SetYearDataPath (shio self) yeardata_path in
        if negb (err =? 0)
        then (Raise (ValueError
                "Path could not be correctly be set by ShioTimeValue_c.SetYearDataPath(...)"),
              {| shio := s |})
        else (Return tt, {| shio := s |})
    end
  else (Raise (IOError ("No such file: " ++ yeardata_path)), self).

(** *** Properties *)

Definition daylight_savings_off_get (self : t) : bool :=
  daylight_savings_off (shio self).

Definition daylight_savings_off_set (self : t) (value : bool) : t :=
  {| shio := set_daylight_savings_off (shio self) value |}.

Definition filename (self : t) : string := filePath (shio self).

Definition scale_factor_get (self : t) : Q := fScaleFactor (shio self).

Definition scale_factor_set (self : t) (value : Q) : t :=
  {| shio := set_fScaleFactor (shio self) value |}.

Definition yeardata (self : t) : string := fYearDataPath (shio self).

Definition station (self : t) : string := fStationName (shio self).

(** [station_type]: [sType = self.shio.fStationType; return sType] *)
Definition station_type (self : t) : ascii := fStationType (shio self).

(** *** Time values and derived tables *)

(** [get_time_value(self, modelTime)]: one [GetTimeValue] per requested
    time, [ValueError] at the first non-zero error code. *)
Fixpoint get_time_value_loop (s : ShioTimeValue_c) (modelTimeArray : list Seconds)
  : outcome (list VelocityRec) * ShioTimeValue_c :=
  match modelTimeArray with
  | [] => (Return [], s)
  | t0 :: rest =>
      let '(err, vel, s1) := GetTimeValue s t0 in
      if negb (err =? 0)
      then (Raise (ValueError
              "Error invoking ShioTimeValue_c.GetTimeValue method in CyShioTime"),
            s1)
      else
        let (r, s2) := get_time_value_loop s1 rest in
        (vel_rec <- r ;; Return (vel :: vel_rec), s2)
  end.

Definition get_time_value (self : t) (modelTime : list Seconds)
  : outcome (list VelocityRec) * t :=
  let (r, s) := get_time_value_loop (shio self) modelTime in
  (r, {| shio := s |}).

(** The copy out of a handle: an array of [sz / tmp_size] records filled by
    [memcpy]; [&a[0]] of an empty array raises. *)
Definition copy_handle {A : Type} (hdl : list A) : outcome (pyobj A) :=
  match hdl with
  | [] => Raise IndexError
  | _ :: _ => Return (PyNdarray hdl)
  end.

(** [get_ebb_flood(self, modelTime)] *)
Definition get_ebb_flood (self : t) (modelTime : list Seconds)
  : outcome (pyobj EbbFloodData) * t :=
  match get_time_value self modelTime with
  | (Raise e, self1) => (Raise e, self1)
  | (Return _, self1) =>
      if Ascii.eqb (fStationType (shio self1)) "C"
      then (copy_handle (fEbbFloodDataHdl (shio self1)), self1)
      else (Return (PyInt 0), self1)
  end.

(** [get_high_low(self, modelTime)] *)
Definition get_high_low (self : t) (modelTime : list Seconds)
  : outcome (pyobj HighLowData) * t :=
  match get_time_value self modelTime with
  | (Raise e, self1) => (Raise e, self1)
  | (Return _, self1) =>
      if Ascii.eqb (fStationType (shio self1)) "H"
      then
        match get_time_value self1 modelTime with
        | (Raise e, self2) => (Raise e, self2)
        | (Return _, self2) =>
            (copy_handle (fHighLowDataHdl (shio self2)), self2)
        end
      else (Return (PyInt 0), self1)
  end.

End Shio.

End CyShioTime.

(** ** [CATSMover_c] (CATSMover_c.h) *)

Module CATSMover_c.

(** Modelled from the spec: [TGridVel], the velocity grid, whose class is
    missing, seen through [GetBounds()] and the interpolated vector at a
    point it covers (section 4.2). *)
Record TGridVel := mkGrid
  { GetBounds : WorldRect;
    interpolate : WorldPoint -> VelocityRec }.

(** [TOSSMTimeValue]: the provider handle, as for the wind mover. *)
Definition TOSSMTimeValue : Type := Seconds -> OSErr * VelocityRec.

(** [short scaleType; // none, constant, or file] *)
Inductive ScaleType : Type :=
| SCALE_NONE
| SCALE_CONSTANT
| SCALE_TIMESERIES.

(** The data members of the class that the engine reads, then the state of
    the specification: the scale cached for the step and the lifecycle. *)
Record t := mk
  { refP : WorldPoint;
    fGrid : option TGridVel;
    refZ : Z;
    scaleType : ScaleType;
    scaleValue : Q;
    refScale : Q;
    bTimeFileActive : Boolean;
    bApplyLogProfile : Boolean;
    timeDep : option TOSSMTimeValue;
    fEddyDiffusion : Q;
    fEddyV0 : Q;
    cachedScale : option Q;
    lifecycle : Lifecycle }.

(** [void SetRefPosition (WorldPoint p, long z) { refP = p; refZ = z; }] *)
Definition SetRefPosition (m : t) (p0 : WorldPoint) (z0 : Z) : t :=
  mk p0 (fGrid m) z0 (scaleType m) (scaleValue m) (refScale m)
     (bTimeFileActive m) (bApplyLogProfile m) (timeDep m) (fEddyDiffusion m)
     (fEddyV0 m) (cachedScale m) (lifecycle m).

(** [void GetRefPosition (WorldPoint *p, long *z)] *)
Definition GetRefPosition (m : t) : WorldPoint * Z := (refP m, refZ m).

(** [virtual WorldRect GetGridBounds(){return fGrid->GetBounds();}] *)
Definition GetGridBounds (m : t) : option WorldRect :=
  option_map GetBounds (fGrid m).

(** [void SetTimeDep (TOSSMTimeValue *newTimeDep) { timeDep = newTimeDep; }] *)
Definition SetTimeDep (m : t) (newTimeDep : option TOSSMTimeValue) : t :=
  mk (refP m) (fGrid m) (refZ m) (scaleType m) (scaleValue m) (refScale m)
     (bTimeFileActive m) (bApplyLogProfile m) newTimeDep (fEddyDiffusion m)
     (fEddyV0 m) (cachedScale m) (lifecycle m).

(** [TOSSMTimeValue *GetTimeDep () { return (timeDep); }] *)
Definition GetTimeDep (m : t) : option TOSSMTimeValue := timeDep m.

Definition set_cachedScale (m : t) (s : option Q) : t :=
  mk (refP m) (fGrid m) (refZ m) (scaleType m) (scaleValue m) (refScale m)
     (bTimeFileActive m) (bApplyLogProfile m) (timeDep m) (fEddyDiffusion m)
     (fEddyV0 m) s (lifecycle m).

Definition set_lifecycle (m : t) (l : Lifecycle) : t :=
  mk (refP m) (fGrid m) (refZ m) (scaleType m) (scaleValue m) (refScale m)
     (bTimeFileActive m) (bApplyLogProfile m) (timeDep m) (fEddyDiffusion m)
     (fEddyV0 m) (cachedScale m) l.

(** Modelled from the spec: the bounds test behind the missing grid
    lookup, section 4.2. *)
Definition WPointInWRect (p0 : WorldPoint) (r : WorldRect) : bool :=
  Qle_bool (loLong r) (pLong p0) && Qle_bool (pLong p0) (hiLong r)
  && Qle_bool (loLat r) (pLat p0) && Qle_bool (pLat p0) (hiLat r).

(** Modelled from the spec: the grid has a value at a point when its
    bounds contain the point (section 4.2); the C++ grid class is missing. *)
Definition hasValueAt (g : TGridVel) (p0 : WorldPoint) : bool :=
  WPointInWRect p0 (GetBounds g).

(** Modelled from the spec: [sampleAt] of section 4.2, the zero vector
    outside the grid; the C++ grid class is missing. *)
Definition sampleAt (g : TGridVel) (p0 : WorldPoint) : VelocityRec :=
  if hasValueAt g p0 then interpolate g p0 else zeroVelocity.

Section Engine.

(** The scalar the scale is computed from (the speed of a velocity
    record) is left open. *)
Variable speed : VelocityRec -> Q.

(** Modelled from the spec: the target value of section 4.6 inside the
    missing [ComputeVelocityScale], the constant to match or the provider's
    value at the model time. *)
Definition targetValue (m : t) (model_time : Seconds) : result Q :=
  match scaleType m with
  | SCALE_NONE => Failed InvalidArguments
  | SCALE_CONSTANT => Ok (scaleValue m)
  | SCALE_TIMESERIES =>
      match timeDep m with
      | None => Failed DataUnavailable
      | Some ossm =>
          let (err, value) := ossm model_time in
          if negb (err =? 0) then Failed DataUnavailable else Ok (speed value)
      end
  end.

(** Modelled from the spec: [ComputeVelocityScale] of sections 4.6 and 7,
    whose body is not among the sources.  With scaling active the scale is
    target / grid value at the reference point, times [refScale]; it is
    cached in the mover.  Without a grid value at the reference point the
    call fails and caches nothing. *)
Definition ComputeVelocityScale (m : t) (model_time : Seconds) : result t :=
  match scaleType m with
  | SCALE_NONE => Ok (set_cachedScale m (Some (refScale m)))
  | _ =>
      match fGrid m with
      | None => Failed DataUnavailable
      | Some g =>
          if hasValueAt g (refP m) then
            match targetValue m model_time with
            | Failed f => Failed f
            | Ok target =>
                let gridValueAtRefPoint := speed (sampleAt g (refP m)) in
                Ok (set_cachedScale m
                      (Some (target / gridValueAtRefPoint * refScale m)%Q))
            end
          else Failed ReferencePointUnresolvable
      end
  end.

(** Modelled from the spec: [CATSMover_c::PrepareForModelStep], declared
    in the header only, sections 4.4 and 4.6; the scale is computed at the
    start of the step, and the mover becomes step-ready only with a scale
    for this step. *)
Definition PrepareForModelStep (m : t) (model_time step_len : Seconds)
    (uncertain : bool) (numSets : Z) (setSizes : list Z) : result t :=
  match lifecycle m with
  | Uninitialized => Failed InvalidArguments
  | _ =>
      if step_len <=? 0 then Failed InvalidArguments
      else
        match ComputeVelocityScale m model_time with
        | Failed f => Failed f
        | Ok m1 =>
            Ok (set_lifecycle m1
                  (StepReady {| uncertain := uncertain; numSets := numSets;
                                setSizes := setSizes |}))
        end
  end.

(** Modelled from the spec: [CATSMover_c::ModelStepIsDone], declared in
    the header only; section 4.4: it clears the scale cached for the step. *)
Definition ModelStepIsDone (m : t) : t :=
  match lifecycle m with
  | StepReady _ => set_lifecycle (set_cachedScale m None) RunReady
  | _ => m
  end.

End Engine.

End CATSMover_c.

(** ** Calls on a [CyWindMover] object *)

Module WindMoverSession.

Import WindMover_c.

(** One call of a method of the wrapper, with its arguments. *)
Inductive call : Type :=
| Call_init (duration time_delay speed_scale angle_scale : Q)
| Call_set_uncertain_duration (value : Q)
| Call_set_uncertain_time_delay (value : Q)
| Call_set_uncertain_speed_scale (value : Q)
| Call_set_uncertain_angle_scale (value : Q)
| Call_prepare_for_model_run
| Call_prepare_for_model_step (model_time step_len : Seconds) (numSets : Z)
    (setSizes : list Z)
| Call_model_step_is_done
| Call_get_move (model_time step_len : Seconds)
    (ref_points delta : list WorldPoint3D) (windages : list Q)
    (LE_status : list Z) (spill_type : LEType) (spill_ID : Z)
| Call_get_time_value (modelTime : list Seconds)
| Call_set_constant_wind (windU windV : Q)
| Call_set_ossm (ossm_time_dep : OSSMTimeValue_c).

(** The object after a call, whether the call returned or raised. *)
Definition exec (cpp : WindMover_c.api) (self : CyWindMover.t) (c : call)
  : CyWindMover.t :=
  match c with
  | Call_init d t0 s a => CyWindMover.__init__ self d t0 s a
  | Call_set_uncertain_duration x =>
      snd (CyWindMover.uncertain_duration_set self x)
  | Call_set_uncertain_time_delay x =>
      snd (CyWindMover.uncertain_time_delay_set self x)
  | Call_set_uncertain_speed_scale x =>
      snd (CyWindMover.uncertain_speed_scale_set self x)
  | Call_set_uncertain_angle_scale x =>
      snd (CyWindMover.uncertain_angle_scale_set self x)
  | Call_prepare_for_model_run =>
      snd (CyWindMover.prepare_for_model_run cpp self)
  | Call_prepare_for_model_step t0 len n sizes =>
      snd (CyWindMover.prepare_for_model_step cpp self t0 len n sizes)
  | Call_model_step_is_done => snd (CyWindMover.model_step_is_done cpp self)
  | Call_get_move t0 len ref delta windages status ty id =>
      snd (CyWindMover.get_move cpp self t0 len ref delta windages status ty id)
  | Call_get_time_value times =>
      snd (CyWindMover.get_time_value cpp self times)
  | Call_set_constant_wind wu wv =>
      snd (CyWindMover.set_constant_wind self wu wv)
  | Call_set_ossm ossm => snd (CyWindMover.set_ossm cpp self ossm)
  end.

Definition run (cpp : WindMover_c.api) (self : CyWindMover.t)
    (calls : list call) : CyWindMover.t :=
  fold_left (exec cpp) calls self.

(** The calls that put the mover in constant mode
    ([fIsConstantWind = 1]). *)
Definition sets_constant_mode (c : call) : bool :=
  match c with
  | Call_init _ _ _ _ => true
  | Call_set_constant_wind _ _ => true
  | _ => false
  end.

(** The provider attached last: [ossm], unless a later call attached
    another one. *)
Definition last_attached (ossm : OSSMTimeValue_c) (calls : list call)
  : OSSMTimeValue_c :=
  fold_left
    (fun q c => match c with Call_set_ossm o => o | _ => q end) calls ossm.

Definition attaches_provider (c : call) : bool :=
  match c with
  | Call_set_ossm _ => true
  | _ => false
  end.

(** The wind source of a mover: the mode flag, the constant pair and the
    attached provider. *)
Definition same_wind_source (m1 m2 : WindMover_c.t) : Prop :=
  fIsConstantWind m1 = fIsConstantWind m2 /\
  fConstantValue m1 = fConstantValue m2 /\
  timeDep m1 = timeDep m2.

(** The entry of [delta] for a particle of status [s] when uncertainty is
    disabled for the step. *)
Definition certain_move (in_water : Z -> bool) (wind : VelocityRec)
    (step_len : Seconds) (s : Z) : WorldPoint3D :=
  if in_water s
  then WindMoverEngine.displacement wind zeroVelocity step_len
  else zeroPoint3D.

(** What [get_move] computes in a step prepared without uncertainty: it
    depends on the wind source only, not on the uncertainty state. *)
Definition certain_get_move (errcode : Failure -> OSErr)
    (in_water : Z -> bool) (m : WindMover_c.t) (n : Z)
    (model_time step_len : Seconds) (delta : list WorldPoint3D)
    (LE_status : list Z) (spillType : LEType) : OSErr * list WorldPoint3D :=
  match spillType with
  | LEType_other _ => (2, delta)
  | _ =>
      let (err, wind) := WindMoverEngine.GetTimeValue errcode m model_time in
      if negb (err =? 0) then (err, delta)
      else
        let moved := map (certain_move in_water wind step_len)
                         (firstn (Z.to_nat n) LE_status) in
        (noErr, moved ++ skipn (List.length moved) delta)
  end.

End WindMoverSession.

(** ** Statements of the specification, in its own words, and sample
    inputs *)

Module Stated.

(** Section 6: "negative durations/scales are rejected", for one setter. *)
Definition rejects_negative
    (setter : CyWindMover.t -> Q -> outcome unit * CyWindMover.t) : Prop :=
  forall self value, (value < 0)%Q -> raises (fst (setter self value)).

(** A per-particle [GetMove] is declared to return a [WorldPoint3D] by
    value: a call of the base mover yields that value. *)
Definition Mover_GetMove_call (self : Mover_c.t)
    (start_time stop_time model_time timeStep : Seconds)
    (setIndex leIndex : Z) (theLE : LERec) (leType : LEType)
  : result WorldPoint3D :=
  Ok (Mover_c.GetMove self start_time stop_time model_time timeStep
                      setIndex leIndex theLE leType).

(** Section 4.4: "GetMove fails with InvalidArguments if the particle's set
    index exceeds numSets configured for the step". *)
Definition fails_beyond_numSets
    (GetMove_call : Z -> LERec -> result WorldPoint3D) (numSets : Z) : Prop :=
  forall setIndex theLE,
    numSets < setIndex -> GetMove_call setIndex theLE = Failed InvalidArguments.

(** Section 3: the station type tag is "one of a small closed set --
    current-station vs. height-station". *)
Definition station_type_is_C_or_H (tag : ascii) : Prop :=
  tag = "C"%char \/ tag = "H"%char.

(** Section 4.1: "requesting the wrong one for a station type yields an
    empty result, not an error". *)
Definition empty_result {A : Type} (r : outcome (CyShioTime.pyobj A)) : Prop :=
  r = Return (CyShioTime.PyNdarray []).

End Stated.

Module Samples.

Import WindMover_c.

(** An engine instance: failures are reported as -1, the refresh keeps the
    offsets it finds, status 2 is "in water". *)
Definition engine : WindMover_c.api :=
  WindMoverEngine.engine (fun _ => -1) (fun m _ _ => fUncertainty m)
                         (fun s => s =? 2).

Definition wind_mover : CyWindMover.t := CyWindMover.create engine.

Definition particle : LERec :=
  {| le_p := {| pLong := (-70)%Q; pLat := 42%Q |}; le_z := 3%Q;
     le_windage := (3 # 100)%Q |}.

Definition point (x y : Q) : WorldPoint3D :=
  {| p := {| pLong := x; pLat := y |}; z := 0%Q |}.

(** A provider: wind (t, 2) at time t. *)
Definition ramp : WindMover_c.OSSMTimeValue_c :=
  fun t0 => (0, {| u := inject_Z t0; v := 2%Q |}).

Definition session : list WindMoverSession.call :=
  [ WindMoverSession.Call_prepare_for_model_run;
    WindMoverSession.Call_set_uncertain_duration 100%Q;
    WindMoverSession.Call_prepare_for_model_step 0 3600 0 [];
    WindMoverSession.Call_get_time_value [7] ].

(** The sample mover with constant wind (1, 0), prepared for a step of
    3600 s without uncertainty sets. *)
Definition prepared : CyWindMover.t :=
  WindMoverSession.run engine
    (snd (CyWindMover.set_constant_wind wind_mover 1%Q 0%Q))
    [ WindMoverSession.Call_prepare_for_model_run;
      WindMoverSession.Call_prepare_for_model_step 0 3600 0 [] ].

(** The same mover holding a non-zero offset for set 0. *)
Definition prepared_with_offsets : CyWindMover.t :=
  {| CyWindMover.mover :=
       set_fUncertainty (CyWindMover.mover prepared)
         [ {| currentOffset := {| u := 9%Q; v := 9%Q |};
              lastRefreshTime := 0 |} ] |}.

Definition redraw (m : WindMover_c.t) (t0 : Seconds) (n : Z)
  : list UncertainRec :=
  [ {| currentOffset := {| u := inject_Z t0; v := inject_Z n |};
       lastRefreshTime := t0 |} ].

(** A tidal station on disk: the only file is [tides.txt]; reading it
    yields a station of type [P]; every time value can be computed. *)
Definition files (path_ : string) : bool := String.eqb path_ "tides.txt".

Definition blank_station : CyShioTime.ShioTimeValue_c unit unit :=
  CyShioTime.mkShio unit unit true "" 1%Q "" "" "000"%char
                    {| pLong := 0%Q; pLat := 0%Q |} 0 [] [].

Definition station_of_type (tag : ascii)
  : CyShioTime.ShioTimeValue_c unit unit :=
  CyShioTime.mkShio unit unit true "tides.txt" 1%Q "" "Sample Station" tag
                    {| pLong := (-70000000)%Q; pLat := 42000000%Q |} 0
                    [tt; tt] [tt].

Definition read_station (tag : ascii)
    (s : CyShioTime.ShioTimeValue_c unit unit) (file_ : string)
  : OSErr * CyShioTime.ShioTimeValue_c unit unit :=
  (0, station_of_type tag).

Definition tide (s : CyShioTime.ShioTimeValue_c unit unit) (t0 : Seconds)
  : OSErr * VelocityRec * CyShioTime.ShioTimeValue_c unit unit :=
  (0, {| u := 1%Q; v := 0%Q |}, s).

(** A pattern mover over the unit square with uniform current (0, 2),
    scaled to a time series, whose reference point (5, 5) lies outside the
    grid. *)
Definition unit_square_grid : CATSMover_c.TGridVel :=
  {| CATSMover_c.GetBounds :=
       {| loLong := 0%Q; loLat := 0%Q; hiLong := 1%Q; hiLat := 1%Q |};
     CATSMover_c.interpolate := fun _ => {| u := 0%Q; v := 2%Q |} |}.

Definition pattern_mover : CATSMover_c.t :=
  {| CATSMover_c.refP := {| pLong := 5%Q; pLat := 5%Q |};
     CATSMover_c.fGrid := Some unit_square_grid;
     CATSMover_c.refZ := 0;
     CATSMover_c.scaleType := CATSMover_c.SCALE_TIMESERIES;
     CATSMover_c.scaleValue := 1%Q;
     CATSMover_c.refScale := 1%Q;
     CATSMover_c.bTimeFileActive := true;
     CATSMover_c.bApplyLogProfile := false;
     CATSMover_c.timeDep := Some (fun _ => (0, {| u := 4%Q; v := 0%Q |}));
     CATSMover_c.fEddyDiffusion := 0%Q;
     CATSMover_c.fEddyV0 := 0%Q;
     CATSMover_c.cachedScale := Some 7%Q;
     CATSMover_c.lifecycle := RunReady |}.

(** A stand-in for the speed of a velocity record: |u| + |v|. *)
Definition speed (w : VelocityRec) : Q := (Qabs (u w) + Qabs (v w))%Q.

End Samples.

(** ** [TimeValue_g] (TimeValue_g.h) *)

Module TimeValue_g.

Definition ClassID := Z.

Section ClassId.

(** The constant [TYPE_TIMEVALUES] and the base-class method
    [ClassID_g::IAm] come from headers outside [TimeValue_g.h]. *)
Variable TYPE_TIMEVALUES : ClassID.
Variable ClassID_g_IAm : ClassID -> Boolean.

(** [virtual ClassID GetClassID () { return TYPE_TIMEVALUES; }] *)
Definition GetClassID : ClassID := TYPE_TIMEVALUES.

(** [virtual Boolean IAm(ClassID id)
      { if(id==TYPE_TIMEVALUES) return TRUE; return ClassID_g::IAm(id); }] *)
Definition IAm (id : ClassID) : Boolean :=
  if id =? TYPE_TIMEVALUES then true else ClassID_g_IAm id.

End ClassId.

End TimeValue_g.

(** ** Configuration calls on a [CyWindMover] object *)

Module WindMoverConfig.

Import WindMoverSession.

(** The calls that configure the mover without running a step: the
    constructor body, the four property setters, [set_constant_wind] and
    [set_ossm]. *)
Definition is_configuration_call (c : call) : bool :=
  match c with
  | Call_init _ _ _ _
  | Call_set_uncertain_duration _
  | Call_set_uncertain_time_delay _
  | Call_set_uncertain_speed_scale _
  | Call_set_uncertain_angle_scale _
  | Call_set_constant_wind _ _
  | Call_set_ossm _ => true
  | _ => false
  end.

(** The value of [fIsConstantWind] the source assigns in a call, if any:
    1 in [__init__] and [set_constant_wind], 0 in [set_ossm]. *)
Definition assigned_mode (c : call) : option bool :=
  match c with
  | Call_init _ _ _ _ => Some true
  | Call_set_constant_wind _ _ => Some true
  | Call_set_ossm _ => Some false
  | _ => None
  end.

(** The mode assigned last in a sequence of calls, starting from [flag]. *)
Definition mode_after (flag : bool) (calls : list call) : bool :=
  fold_left
    (fun b c => match assigned_mode c with Some b' => b' | None => b end)
    calls flag.

End WindMoverConfig.

Module Fixtures.

(** A year-data setter that records the path it is given. *)
Definition store_yeardata (s : CyShioTime.ShioTimeValue_c unit unit)
    (path_ : string) : OSErr * CyShioTime.ShioTimeValue_c unit unit :=
  (0,
   CyShioTime.mkShio unit unit
     (CyShioTime.daylight_savings_off _ _ s) (CyShioTime.filePath _ _ s)
     (CyShioTime.fScaleFactor _ _ s) path_ (CyShioTime.fStationName _ _ s)
     (CyShioTime.fStationType _ _ s) (CyShioTime.fStationLocation _ _ s)
     (CyShioTime.fUserUnits _ _ s) (CyShioTime.fEbbFloodDataHdl _ _ s)
     (CyShioTime.fHighLowDataHdl _ _ s)).

(** A file system holding the directory [yeardata] only. *)
Definition dirs (path_ : string) : bool := String.eqb path_ "yeardata".

(** A tide computation that fails after model time 100. *)
Definition tide_until_100 (s : CyShioTime.ShioTimeValue_c unit unit)
    (t0 : Seconds)
  : OSErr * VelocityRec * CyShioTime.ShioTimeValue_c unit unit :=
  (if t0 <=? 100 then 0 else -1, {| u := inject_Z t0; v := 0%Q |}, s).

(** A wind mover whose provider has no data after model time 100. *)
Definition short_provider : WindMover_c.OSSMTimeValue_c :=
  fun t0 => (if t0 <=? 100 then 0 else -1, {| u := inject_Z t0; v := 0%Q |}).

End Fixtures.

(** * Properties *)

(** ** Base mover *)

(** C10.  For every particle record and every choice of the time, index and
    type arguments, the base mover's [GetMove] returns a [WorldPoint3D] whose
    latitude, longitude and z are exactly the particle's own position
    fields. *)
Theorem Mover_GetMove_identity :
  forall (self : Mover_c.t) (start_time stop_time model_time timeStep : Seconds)
         (setIndex leIndex : Z) (theLE : LERec) (leType : LEType),
    let r := Mover_c.GetMove self start_time stop_time model_time timeStep
                             setIndex leIndex theLE leType in
    pLat (p r) = pLat (le_p theLE) /\
    pLong (p r) = pLong (le_p theLE) /\
    z r = le_z theLE.
Proof.
  intros; subst r; unfold Mover_c.GetMove; cbn.
  repeat split.
Qed.

(** ** Error channel of [GetMove] *)

(** Called for set index 5 while no set is configured, the base mover
    returns the particle's position: the failure of section 4.4 does not
    occur. *)
Lemma base_GetMove_beyond_sets_returns :
  0 < 5 /\
  Stated.Mover_GetMove_call Mover_c.new 0 3600 0 3600 5 0 Samples.particle
                            FORECAST_LE
  = Ok {| p := {| pLong := (-70)%Q; pLat := 42%Q |}; z := 3%Q |} /\
  ~ Stated.fails_beyond_numSets
      (fun setIndex theLE =>
         Stated.Mover_GetMove_call Mover_c.new 0 3600 0 3600 setIndex 0 theLE
                                   FORECAST_LE) 0.
Proof.
  split; [lia | split; [reflexivity |]].
  intros H. specialize (H 5 Samples.particle ltac:(lia)). discriminate H.
Qed.

(** C4 (as the code has it).  The per-particle [GetMove] of the base mover
    has no error channel: whatever the set index, also beyond the number of
    configured sets, the call yields the particle's position.  The Python
    [get_move] of the wind mover raises in exactly these cases:
    [IndexError] when one of the arrays [ref_points], [delta], [windages],
    [LE_status] is empty, before the mover is called and with the object
    left as it was; otherwise [ValueError] when the underlying call returns
    code 1 (arrays not defined) or code 2 (invalid spill type).  With
    non-empty arrays and any other code it returns normally with [delta] as
    the underlying call left it. *)
Theorem get_move_raises_only_on_codes_1_and_2 :
  forall (cpp : WindMover_c.api) (self : CyWindMover.t)
         (model_time step_len : Seconds) (ref_points delta : list WorldPoint3D)
         (windages : list Q) (LE_status : list Z) (spill_type : LEType)
         (spill_ID : Z),
    let under :=
      WindMover_c.get_move cpp (CyWindMover.mover self)
        (Z.of_nat (List.length ref_points)) model_time step_len ref_points
        delta windages LE_status spill_type spill_ID in
    let err := fst (fst under) in
    let whole :=
      CyWindMover.get_move cpp self model_time step_len ref_points delta
                           windages LE_status spill_type spill_ID in
    let call := fst whole in
    let some_empty :=
      ref_points = [] \/ delta = [] \/ windages = [] \/ LE_status = [] in
    (forall base t0 t1 t2 dt setIndex leIndex theLE leType,
        Mover_c.GetMove base t0 t1 t2 dt setIndex leIndex theLE leType
        = {| p := le_p theLE; z := le_z theLE |}) /\
    (raises call <-> some_empty \/ err = 1 \/ err = 2) /\
    (some_empty -> whole = (Raise IndexError, self)) /\
    (~ some_empty ->
     (raises call <-> err = 1 \/ err = 2) /\
     (raises call -> exists msg, call = Raise (ValueError msg)) /\
     (err <> 1 -> err <> 2 -> call = Return (snd (fst under)))) /\
    (forall e, call = Raise e ->
               e = IndexError \/ exists msg, e = ValueError msg).
Proof.
  intros cpp self model_time step_len ref_points delta windages LE_status
         spill_type spill_ID under err whole call some_empty.
  split.
  { intros. unfold Mover_c.GetMove.
    destruct theLE as [[lo la] zz w]; reflexivity. }
  assert (Hempty : some_empty -> whole = (Raise IndexError, self)).
  { subst whole some_empty. unfold CyWindMover.get_move.
    destruct ref_points, delta, windages, LE_status;
      cbn [CyWindMover.is_empty orb]; try (intros _; reflexivity).
    intros [H | [H | [H | H]]]; discriminate H. }
  assert (Hfull :
    ~ some_empty ->
    call = if err =? 1
           then Raise (ValueError
                  "Make sure numpy arrays for ref_points, delta and windages are defined")
           else if err =? 2
           then Raise (ValueError
                  "The value for spill type can only be 'forecast' or 'uncertainty'")
           else Return (snd (fst under))).
  { subst call whole some_empty err. unfold CyWindMover.get_move.
    destruct ref_points as [|r0 rs]; [intros H; exfalso; apply H; now left |].
    destruct delta as [|d0 ds];
      [intros H; exfalso; apply H; right; now left |].
    destruct windages as [|w0 ws];
      [intros H; exfalso; apply H; right; right; now left |].
    destruct LE_status as [|s0 ss];
      [intros H; exfalso; apply H; right; right; now right |].
    intros _. cbn [CyWindMover.is_empty orb]. fold under.
    destruct under as [[e d'] m]. cbn [fst snd].
    destruct (e =? 1); [reflexivity |]. destruct (e =? 2); reflexivity. }
  assert (Hdec : some_empty \/ ~ some_empty).
  { subst some_empty.
    destruct ref_points; [left; now left |].
    destruct delta; [left; right; now left |].
    destruct windages; [left; right; right; now left |].
    destruct LE_status; [left; right; right; now right |].
    right. intros [H | [H | [H | H]]]; discriminate H. }
  assert (Hcodes :
    ~ some_empty ->
    (raises call <-> err = 1 \/ err = 2) /\
    (raises call -> exists msg, call = Raise (ValueError msg)) /\
    (err <> 1 -> err <> 2 -> call = Return (snd (fst under)))).
  { intros Hne. rewrite (Hfull Hne).
    destruct (Z.eqb_spec err 1) as [E1 | E1].
    { split; [| split].
      - split; [intros _; now left | intros _; eexists; reflexivity].
      - intros _. eexists; reflexivity.
      - intros H; contradiction. }
    destruct (Z.eqb_spec err 2) as [E2 | E2].
    { split; [| split].
      - split; [intros _; now right | intros _; eexists; reflexivity].
      - intros _. eexists; reflexivity.
      - intros _ H; contradiction. }
    split; [| split].
    - split; [intros [x Hx]; discriminate Hx | intros [H | H]; contradiction].
    - intros [x Hx]; discriminate Hx.
    - intros _ _; reflexivity. }
  split; [| split; [exact Hempty | split; [exact Hcodes |]]].
  - destruct Hdec as [He | Hne].
    + split; [intros _; now left |].
      intros _. subst call. rewrite (Hempty He). eexists; reflexivity.
    + destruct (Hcodes Hne) as [Hiff _]. split.
      * intros H. right. apply Hiff. exact H.
      * intros [H | H]; [contradiction | apply Hiff; exact H].
  - intros e He. destruct Hdec as [Hs | Hne].
    + subst call. rewrite (Hempty Hs) in He. inversion He. now left.
    + right. destruct (Hcodes Hne) as (_ & Hval & _).
      destruct (Hval (ex_intro _ e He)) as [msg Hmsg].
      rewrite Hmsg in He. inversion He. eexists; reflexivity.
Qed.

(** On the sample mover, a spill type that is neither forecast nor
    uncertainty is answered with code 2, and the call raises. *)
Lemma get_move_raises_only_on_codes_1_and_2_witness :
  ~ ([Samples.point 0 0] = [] \/ [Samples.point 0 0] = [] \/
     [(3 # 100)%Q] = [] \/ [2] = []) /\
  (raises
     (fst (CyWindMover.get_move Samples.engine Samples.wind_mover 0 3600
             [Samples.point 0 0] [Samples.point 0 0] [(3 # 100)%Q] [2]
             (LEType_other 7) 0))
   <-> 2 = 1 \/ 2 = 2).
Proof.
  assert (Hne : ~ ([Samples.point 0 0] = [] \/ [Samples.point 0 0] = [] \/
                   [(3 # 100)%Q] = [] \/ [2] = [])).
  { intros [H | [H | [H | H]]]; discriminate H. }
  split; [exact Hne |].
  exact (proj1 (proj1 (proj2 (proj2 (proj2
    (get_move_raises_only_on_codes_1_and_2 Samples.engine Samples.wind_mover
       0 3600 [Samples.point 0 0] [Samples.point 0 0] [(3 # 100)%Q] [2]
       (LEType_other 7) 0)))) Hne)).
Defined.

(** ** Tunable parameters of the wind mover *)

(** Setting the angle scale of the sample mover to -1 returns normally and
    the getter then returns -1: the negative value is not rejected. *)
Lemma negative_angle_scale_is_stored :
  (-1 < 0)%Q /\
  fst (CyWindMover.uncertain_angle_scale_set Samples.wind_mover (-1)%Q)
  = Return tt /\
  CyWindMover.uncertain_angle_scale_get
    (snd (CyWindMover.uncertain_angle_scale_set Samples.wind_mover (-1)%Q))
  = (-1)%Q /\
  ~ Stated.rejects_negative CyWindMover.uncertain_angle_scale_set.
Proof.
  assert (Hneg : (-1 < 0)%Q) by reflexivity.
  repeat split; try assumption.
  intros H. destruct (H Samples.wind_mover (-1)%Q Hneg) as [e He].
  discriminate He.
Qed.

(** C5 (as the code has it).  Each of the four tunable accessors
    (uncertainty duration, uncertainty start delay, speed scale, angle
    scale) is a plain assignment: for every value, negative or not, the
    setter returns normally, the getter then returns that value, and the
    other three tunables are unchanged. *)
Theorem tunables_store_any_value :
  forall (self : CyWindMover.t) (value : Q),
    (fst (CyWindMover.uncertain_duration_set self value) = Return tt /\
     let self' := snd (CyWindMover.uncertain_duration_set self value) in
     CyWindMover.uncertain_duration_get self' = value /\
     CyWindMover.uncertain_time_delay_get self'
     = CyWindMover.uncertain_time_delay_get self /\
     CyWindMover.uncertain_speed_scale_get self'
     = CyWindMover.uncertain_speed_scale_get self /\
     CyWindMover.uncertain_angle_scale_get self'
     = CyWindMover.uncertain_angle_scale_get self) /\
    (fst (CyWindMover.uncertain_time_delay_set self value) = Return tt /\
     let self' := snd (CyWindMover.uncertain_time_delay_set self value) in
     CyWindMover.uncertain_time_delay_get self' = value /\
     CyWindMover.uncertain_duration_get self'
     = CyWindMover.uncertain_duration_get self /\
     CyWindMover.uncertain_speed_scale_get self'
     = CyWindMover.uncertain_speed_scale_get self /\
     CyWindMover.uncertain_angle_scale_get self'
     = CyWindMover.uncertain_angle_scale_get self) /\
    (fst (CyWindMover.uncertain_speed_scale_set self value) = Return tt /\
     let self' := snd (CyWindMover.uncertain_speed_scale_set self value) in
     CyWindMover.uncertain_speed_scale_get self' = value /\
     CyWindMover.uncertain_duration_get self'
     = CyWindMover.uncertain_duration_get self /\
     CyWindMover.uncertain_time_delay_get self'
     = CyWindMover.uncertain_time_delay_get self /\
     CyWindMover.uncertain_angle_scale_get self'
     = CyWindMover.uncertain_angle_scale_get self) /\
    (fst (CyWindMover.uncertain_angle_scale_set self value) = Return tt /\
     let self' := snd (CyWindMover.uncertain_angle_scale_set self value) in
     CyWindMover.uncertain_angle_scale_get self' = value /\
     CyWindMover.uncertain_duration_get self'
     = CyWindMover.uncertain_duration_get self /\
     CyWindMover.uncertain_time_delay_get self'
     = CyWindMover.uncertain_time_delay_get self /\
     CyWindMover.uncertain_speed_scale_get self'
     = CyWindMover.uncertain_speed_scale_get self).
Proof.
  intros [m] value; cbn. repeat split.
Qed.

(** ** Wind source of the wind mover *)

Section EngineFacts.

Import WindMover_c.
Import WindMoverSession.

Variable errcode : Failure -> OSErr.
Variable refreshUncertainty :
  WindMover_c.t -> Seconds -> Z -> list UncertainRec.
Variable in_water : Z -> bool.

Let eng := WindMoverEngine.engine errcode refreshUncertainty in_water.

Lemma same_wind_source_refl m : same_wind_source m m.
Proof. repeat split. Qed.

Lemma PrepareForModelRun_wind_source m :
  same_wind_source (WindMoverEngine.PrepareForModelRun m) m.
Proof. repeat split. Qed.

Lemma PrepareForModelStep_wind_source m t0 len unc n sizes :
  same_wind_source
    (snd (WindMoverEngine.PrepareForModelStep errcode refreshUncertainty
            m t0 len unc n sizes)) m.
Proof.
  unfold WindMoverEngine.PrepareForModelStep.
  destruct (lifecycle m); cbn; try apply same_wind_source_refl;
    destruct (len <=? 0); cbn; try apply same_wind_source_refl;
    destruct (unc && negb (WindMoverEngine.well_formed_partition n sizes));
    cbn; repeat split.
Qed.

Lemma ModelStepIsDone_wind_source m :
  same_wind_source (WindMoverEngine.ModelStepIsDone m) m.
Proof.
  unfold WindMoverEngine.ModelStepIsDone.
  destruct (lifecycle m); repeat split.
Qed.

(** [get_move] does not change the mover (section 4.4). *)
Lemma get_move_keeps_mover m n t0 len ref delta windages status ty id :
  snd (WindMoverEngine.get_move errcode in_water m n t0 len ref delta
         windages status ty id) = m.
Proof.
  unfold WindMoverEngine.get_move.
  destruct ty; try reflexivity;
    (destruct (lifecycle m); try reflexivity;
     destruct (WindMoverEngine.GetTimeValue errcode m t0) as [e w];
     destruct (negb (e =? 0)); try reflexivity;
     destruct (WindMoverEngine.move_all in_water m step w len 0
                 (firstn (Z.to_nat n) status)); reflexivity).
Qed.

Lemma exec_wind_source self c :
  match c with
  | WindMoverSession.Call_init _ _ _ _
  | WindMoverSession.Call_set_constant_wind _ _
  | WindMoverSession.Call_set_ossm _ => True
  | _ => same_wind_source
           (CyWindMover.mover (WindMoverSession.exec eng self c))
           (CyWindMover.mover self)
  end.
Proof.
  destruct self as [m].
  destruct c as [d0 d1 d2 d3 | x | x | x | x | | t0 len n sizes | |
                 t0 len ref delta windages status ty id | times | wu wv | o];
    try exact I; cbn [WindMoverSession.exec].
  - repeat split.
  - repeat split.
  - repeat split.
  - repeat split.
  - apply PrepareForModelRun_wind_source.
  - unfold CyWindMover.prepare_for_model_step. cbn [CyWindMover.mover].
    destruct (n =? 0).
    + pose proof (PrepareForModelStep_wind_source m t0 len false 0 []) as H.
      subst eng. cbn [WindMover_c.PrepareForModelStep WindMoverEngine.engine].
      destruct (WindMoverEngine.PrepareForModelStep _ _ m t0 len false 0 [])
        as [e m']. cbn [snd] in H.
      destruct (negb (e =? 0)); exact H.
    + destruct sizes as [|s0 ss]; [apply same_wind_source_refl|].
      pose proof (PrepareForModelStep_wind_source m t0 len true n (s0 :: ss))
        as H.
      subst eng. cbn [WindMover_c.PrepareForModelStep WindMoverEngine.engine].
      destruct (WindMoverEngine.PrepareForModelStep _ _ m t0 len true n
                  (s0 :: ss)) as [e m']. cbn [snd] in H.
      destruct (negb (e =? 0)); exact H.
  - apply ModelStepIsDone_wind_source.
  - unfold CyWindMover.get_move. cbn [CyWindMover.mover].
    destruct (CyWindMover.is_empty ref || CyWindMover.is_empty delta
              || CyWindMover.is_empty windages || CyWindMover.is_empty status);
      [apply same_wind_source_refl|].
    subst eng. cbn [WindMover_c.get_move WindMoverEngine.engine].
    pose proof (get_move_keeps_mover m (Z.of_nat (List.length ref))
                  t0 len ref delta windages status ty id) as H.
    destruct (WindMoverEngine.get_move _ _ m _ t0 len ref delta windages
                status ty id) as [[e d] m'].
    cbn [snd] in H. subst m'.
    destruct (e =? 1); [apply same_wind_source_refl|].
    destruct (e =? 2); apply same_wind_source_refl.
  - apply same_wind_source_refl.
Qed.

End EngineFacts.

Lemma run_keeps_provider_mode errcode refreshUncertainty in_water :
  forall calls self q,
    Forall (fun c => WindMoverSession.sets_constant_mode c = false) calls ->
    WindMover_c.fIsConstantWind (CyWindMover.mover self) = false ->
    WindMover_c.timeDep (CyWindMover.mover self) = Some q ->
    let self' :=
      WindMoverSession.run
        (WindMoverEngine.engine errcode refreshUncertainty in_water)
        self calls in
    WindMover_c.fIsConstantWind (CyWindMover.mover self') = false /\
    WindMover_c.timeDep (CyWindMover.mover self')
    = Some (WindMoverSession.last_attached q calls).
Proof.
  induction calls as [|c calls IH]; intros self q Hall Hflag Hdep.
  - cbn. split; assumption.
  - inversion Hall as [|c' calls' Hc Hrest]; subst.
    unfold WindMoverSession.run, WindMoverSession.last_attached.
    cbn [fold_left].
    apply IH; [exact Hrest | |].
    + pose proof (exec_wind_source errcode refreshUncertainty in_water self c)
        as H.
      destruct c; try discriminate Hc;
        try (destruct H as (H1 & _ & _); rewrite H1; exact Hflag).
      reflexivity.
    + pose proof (exec_wind_source errcode refreshUncertainty in_water self c)
        as H.
      destruct c; try discriminate Hc;
        try (destruct H as (_ & _ & H3); rewrite H3; exact Hdep).
      reflexivity.
Qed.

(** C7.  Attaching a time-series provider with [set_ossm] overrides
    constant mode: after the attachment and any further calls none of which
    sets constant mode, the mover is not in constant mode, its provider is
    the one attached last, and the deterministic wind at every model time is
    that provider's sample, whatever constant pair is stored. *)
Theorem attached_provider_is_sampled :
  forall (errcode : Failure -> OSErr)
         (refreshUncertainty :
            WindMover_c.t -> Seconds -> Z -> list WindMover_c.UncertainRec)
         (in_water : Z -> bool)
         (self : CyWindMover.t) (ossm : WindMover_c.OSSMTimeValue_c)
         (calls : list WindMoverSession.call),
    Forall (fun c => WindMoverSession.sets_constant_mode c = false) calls ->
    let eng := WindMoverEngine.engine errcode refreshUncertainty in_water in
    let self' :=
      WindMoverSession.run eng (snd (CyWindMover.set_ossm eng self ossm))
                           calls in
    let provider := WindMoverSession.last_attached ossm calls in
    WindMover_c.fIsConstantWind (CyWindMover.mover self') = false /\
    WindMover_c.timeDep (CyWindMover.mover self') = Some provider /\
    (forall model_time,
        WindMover_c.GetTimeValue eng (CyWindMover.mover self') model_time
        = provider model_time) /\
    (forallb (fun c => negb (WindMoverSession.attaches_provider c)) calls
     = true -> provider = ossm).
Proof.
  intros errcode refreshUncertainty in_water self ossm calls Hall eng self'
         provider.
  destruct (run_keeps_provider_mode errcode refreshUncertainty in_water calls
              (snd (CyWindMover.set_ossm eng self ossm)) ossm Hall
              eq_refl eq_refl) as [Hflag Hdep].
  fold eng in Hflag, Hdep. fold self' in Hflag, Hdep. fold provider in Hdep.
  repeat split; try assumption.
  - intros model_time. subst eng.
    cbn [WindMover_c.GetTimeValue WindMoverEngine.engine].
    unfold WindMoverEngine.GetTimeValue.
    rewrite Hflag, Hdep. reflexivity.
  - subst provider. clear. revert ossm.
    induction calls as [|c calls IH]; intros ossm Hno; [reflexivity|].
    cbn in Hno. apply andb_true_iff in Hno. destruct Hno as [Hc Hrest].
    unfold WindMoverSession.last_attached. cbn [fold_left].
    destruct c; try discriminate Hc; apply IH; exact Hrest.
Qed.

(** The sample mover, set to the constant wind (5, 5), then given the ramp
    provider and driven through a run and a step, has wind (7, 2) at
    time 7. *)
Lemma attached_provider_is_sampled_witness :
  Forall (fun c => WindMoverSession.sets_constant_mode c = false)
         Samples.session /\
  WindMover_c.GetTimeValue Samples.engine
    (CyWindMover.mover
       (WindMoverSession.run Samples.engine
          (snd (CyWindMover.set_ossm Samples.engine
                  (snd (CyWindMover.set_constant_wind Samples.wind_mover
                          5%Q 5%Q))
                  Samples.ramp))
          Samples.session)) 7
  = (0, {| u := 7%Q; v := 2%Q |}).
Proof.
  assert (H : Forall (fun c => WindMoverSession.sets_constant_mode c = false)
                     Samples.session)
    by (repeat constructor).
  split; [exact H |].
  exact (proj1 (proj2 (proj2
    (attached_provider_is_sampled (fun _ => -1)
       (fun m _ _ => WindMover_c.fUncertainty m) (fun s => s =? 2)
       (snd (CyWindMover.set_constant_wind Samples.wind_mover 5%Q 5%Q))
       Samples.ramp Samples.session H))) 7).
Defined.

(** ** Displacements without uncertainty *)

Section CertainStep.

Import WindMover_c.
Import WindMoverSession.

Variable errcode : Failure -> OSErr.
Variable in_water : Z -> bool.

Lemma GetTimeValue_same_source m1 m2 model_time :
  same_wind_source m1 m2 ->
  WindMoverEngine.GetTimeValue errcode m1 model_time
  = WindMoverEngine.GetTimeValue errcode m2 model_time.
Proof.
  intros (H1 & H2 & H3). unfold WindMoverEngine.GetTimeValue.
  rewrite H1, H2, H3. reflexivity.
Qed.

Lemma move_all_certain m step wind step_len :
  uncertain step = false ->
  forall LE_status i,
    WindMoverEngine.move_all in_water m step wind step_len i LE_status
    = Some (map (certain_move in_water wind step_len) LE_status).
Proof.
  intros Hunc. induction LE_status as [|s rest IH]; intros i; [reflexivity|].
  cbn [WindMoverEngine.move_all map]. rewrite IH.
  unfold certain_move, WindMoverEngine.offset_for. rewrite Hunc.
  destruct (in_water s); reflexivity.
Qed.

Lemma get_move_certain m step n model_time step_len ref delta windages
      LE_status spillType spill_ID :
  lifecycle m = StepReady step ->
  uncertain step = false ->
  WindMoverEngine.get_move errcode in_water m n model_time step_len ref delta
                           windages LE_status spillType spill_ID
  = (certain_get_move errcode in_water m n model_time step_len delta LE_status
                      spillType, m).
Proof.
  intros Hlife Hunc.
  unfold WindMoverEngine.get_move, certain_get_move. rewrite Hlife.
  destruct spillType; try reflexivity;
    (destruct (WindMoverEngine.GetTimeValue errcode m model_time) as [e w];
     destruct (negb (e =? 0)); [reflexivity|];
     rewrite (move_all_certain m step w step_len Hunc); reflexivity).
Qed.

Lemma certain_get_move_same_source m1 m2 n model_time step_len delta
      LE_status spillType :
  same_wind_source m1 m2 ->
  certain_get_move errcode in_water m1 n model_time step_len delta LE_status
                   spillType
  = certain_get_move errcode in_water m2 n model_time step_len delta
                     LE_status spillType.
Proof.
  intros H. unfold certain_get_move.
  rewrite (GetTimeValue_same_source m1 m2 model_time H). reflexivity.
Qed.

End CertainStep.

(** C9.  With uncertainty disabled for the step, [get_move] is
    reproducible: two movers with the same wind source, whatever their
    uncertainty state and random refresh, give the same outcome (the same
    displacement array, or the same exception) on identical inputs; the
    call leaves the mover as it was, so repeating it on the same object
    gives the same outcome again. *)
Theorem get_move_reproducible_without_uncertainty :
  forall (errcode : Failure -> OSErr) (in_water : Z -> bool)
         (refresh1 refresh2 :
            WindMover_c.t -> Seconds -> Z -> list WindMover_c.UncertainRec)
         (self1 self2 : CyWindMover.t) (step1 step2 : StepInfo)
         (model_time step_len : Seconds) (ref_points delta : list WorldPoint3D)
         (windages : list Q) (LE_status : list Z) (spill_type : LEType)
         (spill_ID : Z),
    WindMoverSession.same_wind_source (CyWindMover.mover self1)
                                      (CyWindMover.mover self2) ->
    WindMover_c.lifecycle (CyWindMover.mover self1) = StepReady step1 ->
    uncertain step1 = false ->
    WindMover_c.lifecycle (CyWindMover.mover self2) = StepReady step2 ->
    uncertain step2 = false ->
    let eng1 := WindMoverEngine.engine errcode refresh1 in_water in
    let eng2 := WindMoverEngine.engine errcode refresh2 in_water in
    let first :=
      CyWindMover.get_move eng1 self1 model_time step_len ref_points delta
                           windages LE_status spill_type spill_ID in
    fst first
    = fst (CyWindMover.get_move eng2 self2 model_time step_len ref_points
                                delta windages LE_status spill_type spill_ID)
    /\ snd first = self1
    /\ CyWindMover.get_move eng1 (snd first) model_time step_len ref_points
                            delta windages LE_status spill_type spill_ID
       = first.
Proof.
  intros errcode in_water refresh1 refresh2 [m1] [m2] step1 step2 model_time
         step_len ref_points delta windages LE_status spill_type spill_ID
         Hsrc Hl1 Hu1 Hl2 Hu2 eng1 eng2 first.
  cbn [CyWindMover.mover] in *.
  assert (Hfirst :
    first =
    if CyWindMover.is_empty ref_points || CyWindMover.is_empty delta
       || CyWindMover.is_empty windages || CyWindMover.is_empty LE_status
    then (Raise IndexError, CyWindMover.mk m1)
    else
      let '(err, delta') :=
        WindMoverSession.certain_get_move errcode in_water m1
          (Z.of_nat (List.length ref_points)) model_time step_len delta
          LE_status spill_type in
      if err =? 1
      then (Raise (ValueError
              "Make sure numpy arrays for ref_points, delta and windages are defined"),
            CyWindMover.mk m1)
      else if err =? 2
      then (Raise (ValueError
              "The value for spill type can only be 'forecast' or 'uncertainty'"),
            CyWindMover.mk m1)
      else (Return delta', CyWindMover.mk m1)).
  { subst first eng1. unfold CyWindMover.get_move.
    cbn [CyWindMover.mover WindMover_c.get_move WindMoverEngine.engine].
    rewrite (get_move_certain errcode in_water m1 step1 _ _ _ _ _ _ _ _ _
               Hl1 Hu1).
    reflexivity. }
  assert (Hsnd : snd first = CyWindMover.mk m1).
  { rewrite Hfirst.
    destruct (CyWindMover.is_empty ref_points || CyWindMover.is_empty delta
              || CyWindMover.is_empty windages
              || CyWindMover.is_empty LE_status); [reflexivity|].
    destruct (WindMoverSession.certain_get_move errcode in_water m1 _
                model_time step_len delta LE_status spill_type) as [e d].
    destruct (e =? 1); [reflexivity|]. destruct (e =? 2); reflexivity. }
  split; [| split; [exact Hsnd |]].
  - rewrite Hfirst. subst eng2. unfold CyWindMover.get_move.
    cbn [CyWindMover.mover WindMover_c.get_move WindMoverEngine.engine].
    rewrite (get_move_certain errcode in_water m2 step2 _ _ _ _ _ _ _ _ _
               Hl2 Hu2).
    rewrite (certain_get_move_same_source errcode in_water m1 m2 _ _ _ _ _ _
               Hsrc).
    destruct (CyWindMover.is_empty ref_points || CyWindMover.is_empty delta
              || CyWindMover.is_empty windages
              || CyWindMover.is_empty LE_status); [reflexivity|].
    destruct (WindMoverSession.certain_get_move errcode in_water m2 _
                model_time step_len delta LE_status spill_type) as [e d].
    destruct (e =? 1); [reflexivity|]. destruct (e =? 2); reflexivity.
  - rewrite Hsnd. reflexivity.
Qed.

(** The prepared sample mover and its copy holding a non-zero offset move
    two particles alike. *)
Lemma get_move_reproducible_without_uncertainty_witness :
  fst (CyWindMover.get_move Samples.engine Samples.prepared 0 3600
         [Samples.point 1 2; Samples.point 3 4]
         [Samples.point 0 0; Samples.point 0 0]
         [(3 # 100)%Q; (3 # 100)%Q] [2; 2] FORECAST_LE 0)
  = fst (CyWindMover.get_move
           (WindMoverEngine.engine (fun _ => -1) Samples.redraw
                                   (fun s => s =? 2))
           Samples.prepared_with_offsets 0 3600
           [Samples.point 1 2; Samples.point 3 4]
           [Samples.point 0 0; Samples.point 0 0]
           [(3 # 100)%Q; (3 # 100)%Q] [2; 2] FORECAST_LE 0).
Proof.
  exact (proj1
    (get_move_reproducible_without_uncertainty (fun _ => -1) (fun s => s =? 2)
       (fun m _ _ => WindMover_c.fUncertainty m) Samples.redraw
       Samples.prepared Samples.prepared_with_offsets
       {| uncertain := false; numSets := 0; setSizes := [] |}
       {| uncertain := false; numSets := 0; setSizes := [] |}
       0 3600 [Samples.point 1 2; Samples.point 3 4]
       [Samples.point 0 0; Samples.point 0 0]
       [(3 # 100)%Q; (3 # 100)%Q] [2; 2] FORECAST_LE 0
       (conj eq_refl (conj eq_refl eq_refl)) eq_refl eq_refl eq_refl eq_refl)).
Defined.

(** ** End-to-end: constant wind, one hour *)

(** C1.  A wind mover set to the constant wind (u, v) = (1, 0), run-prepared
    and step-prepared without uncertainty sets for a step of 3600 s, moves
    every particle that is in the water by (3600, 0): [get_move] returns
    normally and the entry of [delta] for each such particle is the point
    (3600, 0) with z = 0. *)
Theorem constant_wind_hourly_displacement :
  forall (errcode : Failure -> OSErr)
         (refreshUncertainty :
            WindMover_c.t -> Seconds -> Z -> list WindMover_c.UncertainRec)
         (in_water : Z -> bool) (self : CyWindMover.t) (model_time : Seconds)
         (ref_points delta : list WorldPoint3D) (windages : list Q)
         (LE_status : list Z) (spill_type : LEType) (spill_ID : Z),
    ref_points <> [] -> delta <> [] -> windages <> [] -> LE_status <> [] ->
    spill_type = FORECAST_LE \/ spill_type = UNCERTAINTY_LE ->
    let eng := WindMoverEngine.engine errcode refreshUncertainty in_water in
    let self0 := snd (CyWindMover.set_constant_wind self 1%Q 0%Q) in
    let self1 := snd (CyWindMover.prepare_for_model_run eng self0) in
    let prepared :=
      CyWindMover.prepare_for_model_step eng self1 model_time 3600 0 [] in
    fst prepared = Return tt /\
    exists delta',
      fst (CyWindMover.get_move eng (snd prepared) model_time 3600 ref_points
             delta windages LE_status spill_type spill_ID)
      = Return delta' /\
      forall (i : nat) (s : Z),
        (i < List.length ref_points)%nat ->
        nth_error LE_status i = Some s ->
        in_water s = true ->
        nth_error delta' i
        = Some {| p := {| pLong := 3600%Q; pLat := 0%Q |}; z := 0%Q |}.
Proof.
  intros errcode refreshUncertainty in_water [m] model_time ref_points delta
         windages LE_status spill_type spill_ID Href Hdelta Hwind Hstat Hty
         eng self0 self1 prepared.
  split; [reflexivity|].
  unfold CyWindMover.get_move.
  destruct ref_points as [|r0 rs]; [congruence|].
  destruct delta as [|d0 ds]; [congruence|].
  destruct windages as [|w0 ws]; [congruence|].
  destruct LE_status as [|s0 ss]; [congruence|].
  cbn [CyWindMover.is_empty orb].
  subst eng. cbn [WindMover_c.get_move WindMoverEngine.engine].
  assert (Hlife :
    WindMover_c.lifecycle (CyWindMover.mover (snd prepared))
    = StepReady {| uncertain := false; numSets := 0; setSizes := [] |})
    by reflexivity.
  rewrite (get_move_certain errcode in_water _ _ _ _ _ _ _ _ _ _ _
             Hlife eq_refl).
  unfold WindMoverSession.certain_get_move.
  assert (Hwindval :
    WindMoverEngine.GetTimeValue errcode
      (CyWindMover.mover (snd prepared)) model_time
    = (noErr, {| u := 1%Q; v := 0%Q |})) by reflexivity.
  destruct Hty as [-> | ->]; rewrite Hwindval; cbn [noErr Z.eqb negb];
    (eexists; split; [reflexivity|];
     intros i s Hi Hs Hin;
     rewrite Nat2Z.id;
     rewrite nth_error_app1
       by (rewrite length_map, length_firstn;
           apply Nat.min_glb_lt; [exact Hi |];
           apply nth_error_Some; congruence);
     rewrite nth_error_map, nth_error_firstn;
     apply Nat.ltb_lt in Hi; rewrite Hi, Hs;
     cbn [option_map]; unfold WindMoverSession.certain_move;
     rewrite Hin; reflexivity).
Qed.

(** Two particles, the first in the water: its entry of [delta] is
    (3600, 0). *)
Lemma constant_wind_hourly_displacement_witness :
  exists delta',
    fst (CyWindMover.get_move Samples.engine
           (snd (CyWindMover.prepare_for_model_step Samples.engine
                   (snd (CyWindMover.prepare_for_model_run Samples.engine
                           (snd (CyWindMover.set_constant_wind
                                   Samples.wind_mover 1%Q 0%Q))))
                   0 3600 0 []))
           0 3600 [Samples.point 1 2; Samples.point 3 4]
           [Samples.point 0 0; Samples.point 0 0]
           [(3 # 100)%Q; (3 # 100)%Q] [2; 3] FORECAST_LE 0)
    = Return delta' /\
    nth_error delta' 0
    = Some {| p := {| pLong := 3600%Q; pLat := 0%Q |}; z := 0%Q |}.
Proof.
  destruct
    (constant_wind_hourly_displacement (fun _ => -1)
       (fun m _ _ => WindMover_c.fUncertainty m) (fun s => s =? 2)
       Samples.wind_mover 0 [Samples.point 1 2; Samples.point 3 4]
       [Samples.point 0 0; Samples.point 0 0]
       [(3 # 100)%Q; (3 # 100)%Q] [2; 3] FORECAST_LE 0
       ltac:(discriminate) ltac:(discriminate) ltac:(discriminate)
       ltac:(discriminate) (or_introl eq_refl))
    as [_ [delta' [Hret Hall]]].
  exists delta'. split; [exact Hret |].
  apply (Hall 0%nat 2); [repeat constructor | reflexivity | reflexivity].
Defined.

(** ** Tidal station wrapper *)

Section ShioFacts.

Variables EbbFloodData HighLowData : Type.

Let Shio := CyShioTime.ShioTimeValue_c EbbFloodData HighLowData.

Variable GetTimeValue : Shio -> Seconds -> OSErr * VelocityRec * Shio.

Hypothesis GetTimeValue_keeps_station_type :
  forall s t0,
    CyShioTime.fStationType _ _ (snd (GetTimeValue s t0))
    = CyShioTime.fStationType _ _ s.

Lemma get_time_value_loop_station_type :
  forall times s,
    CyShioTime.fStationType _ _
      (snd (CyShioTime.get_time_value_loop _ _ GetTimeValue s times))
    = CyShioTime.fStationType _ _ s.
Proof.
  induction times as [|t0 rest IH]; intros s; [reflexivity|].
  cbn [CyShioTime.get_time_value_loop].
  pose proof (GetTimeValue_keeps_station_type s t0) as Hstep.
  destruct (GetTimeValue s t0) as [[e vel] s1]. cbn [snd] in Hstep.
  destruct (negb (e =? 0)); [exact Hstep|].
  specialize (IH s1).
  destruct (CyShioTime.get_time_value_loop _ _ GetTimeValue s1 rest)
    as [r s2].
  cbn [snd] in *. congruence.
Qed.

Lemma get_time_value_station_type self times :
  CyShioTime.station_type _ _
    (snd (CyShioTime.get_time_value _ _ GetTimeValue self times))
  = CyShioTime.station_type _ _ self.
Proof.
  unfold CyShioTime.get_time_value, CyShioTime.station_type.
  pose proof (get_time_value_loop_station_type times
                (CyShioTime.shio _ _ self)) as H.
  destruct (CyShioTime.get_time_value_loop _ _ GetTimeValue
              (CyShioTime.shio _ _ self) times) as [r s].
  exact H.
Qed.

Lemma get_time_value_raises_ValueError self times e :
  fst (CyShioTime.get_time_value _ _ GetTimeValue self times) = Raise e ->
  exists msg, e = ValueError msg.
Proof.
  unfold CyShioTime.get_time_value.
  generalize (CyShioTime.shio _ _ self). clear self.
  induction times as [|t0 rest IH]; intros s.
  - cbn. discriminate.
  - cbn [CyShioTime.get_time_value_loop].
    destruct (GetTimeValue s t0) as [[err vel] s1].
    destruct (negb (err =? 0)).
    + cbn. intros H. inversion H. eexists; reflexivity.
    + specialize (IH s1).
      destruct (CyShioTime.get_time_value_loop _ _ GetTimeValue s1 rest)
        as [r s2].
      cbn [fst] in *. destruct r as [vs|e']; cbn; [discriminate|].
      intros H. inversion H; subst. apply IH. reflexivity.
Qed.

End ShioFacts.

(** *** Derived tables *)

(** At a height station, [get_ebb_flood] returns the integer 0, which is
    not an empty collection. *)
Lemma ebb_flood_of_height_station_is_zero :
  CyShioTime.station_type unit unit
    (CyShioTime.mk unit unit (Samples.station_of_type "H"))
  <> "C"%char /\
  fst (CyShioTime.get_ebb_flood unit unit Samples.tide
         (CyShioTime.mk unit unit (Samples.station_of_type "H")) [0])
  = Return (CyShioTime.PyInt 0) /\
  ~ Stated.empty_result
      (fst (CyShioTime.get_ebb_flood unit unit Samples.tide
              (CyShioTime.mk unit unit (Samples.station_of_type "H")) [0])).
Proof.
  split; [discriminate | split; [reflexivity |]].
  unfold Stated.empty_result. cbn. discriminate.
Qed.

(** C2 (as the code has it).  With a station type that the time-value
    computation does not change, requesting the derived table that does not
    match the station's type (ebb/flood for a station that is not of type
    [C], high/low for one that is not of type [H]) returns the integer 0,
    not a collection, whenever the time values for the requested times can
    be computed; when they cannot, the [ValueError] of [get_time_value] is
    raised. *)
Theorem mismatched_table_is_integer_zero :
  forall (EbbFloodData HighLowData : Type)
         (GetTimeValue :
            CyShioTime.ShioTimeValue_c EbbFloodData HighLowData -> Seconds ->
            OSErr * VelocityRec *
            CyShioTime.ShioTimeValue_c EbbFloodData HighLowData)
         (self : CyShioTime.t EbbFloodData HighLowData)
         (modelTime : list Seconds),
    (forall s t0,
        CyShioTime.fStationType _ _ (snd (GetTimeValue s t0))
        = CyShioTime.fStationType _ _ s) ->
    let values :=
      fst (CyShioTime.get_time_value _ _ GetTimeValue self modelTime) in
    (CyShioTime.station_type _ _ self <> "C"%char ->
     fst (CyShioTime.get_ebb_flood _ _ GetTimeValue self modelTime)
     = match values with
       | Return _ => Return (CyShioTime.PyInt 0)
       | Raise e => Raise e
       end) /\
    (CyShioTime.station_type _ _ self <> "H"%char ->
     fst (CyShioTime.get_high_low _ _ GetTimeValue self modelTime)
     = match values with
       | Return _ => Return (CyShioTime.PyInt 0)
       | Raise e => Raise e
       end) /\
    (forall e, values = Raise e -> exists msg, e = ValueError msg).
Proof.
  intros EbbFloodData HighLowData GetTimeValue self modelTime Hkeep values.
  pose proof (get_time_value_station_type _ _ GetTimeValue Hkeep self
                modelTime) as Htype.
  unfold CyShioTime.station_type in *.
  repeat split.
  - intros Hnot. unfold CyShioTime.get_ebb_flood. subst values.
    destruct (CyShioTime.get_time_value _ _ GetTimeValue self modelTime)
      as [[vs|e] self1]; cbn [fst snd] in *; [|reflexivity].
    rewrite Htype.
    destruct (Ascii.eqb_spec (CyShioTime.fStationType _ _
                                (CyShioTime.shio _ _ self)) "C");
      [contradiction | reflexivity].
  - intros Hnot. unfold CyShioTime.get_high_low. subst values.
    destruct (CyShioTime.get_time_value _ _ GetTimeValue self modelTime)
      as [[vs|e] self1]; cbn [fst snd] in *; [|reflexivity].
    rewrite Htype.
    destruct (Ascii.eqb_spec (CyShioTime.fStationType _ _
                                (CyShioTime.shio _ _ self)) "H");
      [contradiction | reflexivity].
  - intros e He.
    exact (get_time_value_raises_ValueError _ _ GetTimeValue self modelTime
             e He).
Qed.

(** At a current station, [get_high_low] returns the integer 0. *)
Lemma mismatched_table_is_integer_zero_witness :
  fst (CyShioTime.get_high_low unit unit Samples.tide
         (CyShioTime.mk unit unit (Samples.station_of_type "C")) [0; 3600])
  = Return (CyShioTime.PyInt 0).
Proof.
  exact (proj1 (proj2
    (mismatched_table_is_integer_zero unit unit Samples.tide
       (CyShioTime.mk unit unit (Samples.station_of_type "C")) [0; 3600]
       (fun s t0 => eq_refl)))
    ltac:(discriminate)).
Defined.

(** *** Station type *)

(** A station file of type [P] loads, and [P] is the type exposed: neither
    a current station nor a height station. *)
Lemma station_of_type_P_is_exposed :
  exists self,
    CyShioTime.construct unit unit Samples.files (fun path_ => path_)
      Samples.blank_station (Samples.read_station "P")
      (CyShioTime.set_fUserUnits unit unit) "tides.txt" true 1%Q
    = Return self /\
    CyShioTime.station_type unit unit self = "P"%char /\
    ~ Stated.station_type_is_C_or_H (CyShioTime.station_type unit unit self).
Proof.
  eexists. split; [reflexivity | split; [reflexivity |]].
  intros [H | H]; discriminate H.
Qed.

(** C6 (as the code has it).  The station type exposed for a loaded station
    is the character held in [fStationType] by the C++ object once
    [ReadTimeValues] and [SetUserUnits] have run, unchanged: the wrapper
    restricts it to no set (its documentation lists ['C'], ['H'] and
    ['P']). *)
Theorem station_type_is_the_loaded_tag :
  forall (EbbFloodData HighLowData : Type)
         (path_exists : string -> bool) (normpath : string -> string)
         (ShioTimeValue_c_new :
            CyShioTime.ShioTimeValue_c EbbFloodData HighLowData)
         (ReadTimeValues :
            CyShioTime.ShioTimeValue_c EbbFloodData HighLowData -> string ->
            OSErr * CyShioTime.ShioTimeValue_c EbbFloodData HighLowData)
         (SetUserUnits :
            CyShioTime.ShioTimeValue_c EbbFloodData HighLowData -> Z ->
            CyShioTime.ShioTimeValue_c EbbFloodData HighLowData)
         (path_ : string) (daylight_savings_off : bool) (scale_factor : Q)
         (self : CyShioTime.t EbbFloodData HighLowData),
    CyShioTime.construct _ _ path_exists normpath ShioTimeValue_c_new
                         ReadTimeValues SetUserUnits path_
                         daylight_savings_off scale_factor
    = Return self ->
    CyShioTime.station_type _ _ self
    = CyShioTime.fStationType _ _
        (SetUserUnits
           (snd (ReadTimeValues
                   (CyShioTime.set_daylight_savings_off _ _
                      ShioTimeValue_c_new daylight_savings_off)
                   (normpath path_)))
           (-1)).
Proof.
  intros EbbFloodData HighLowData path_exists normpath new0 ReadTimeValues
         SetUserUnits path_ dso sf self.
  unfold CyShioTime.construct, CyShioTime.__init__, CyShioTime.__cinit__.
  cbn [CyShioTime.shio].
  destruct (path_exists path_); [|discriminate].
  destruct (ReadTimeValues _ (normpath path_)) as [err s].
  destruct (negb (err =? 0)); [discriminate|].
  intros H. inversion H. reflexivity.
Qed.

(** The station loaded from the sample file exposes the type read. *)
Lemma station_type_is_the_loaded_tag_witness :
  CyShioTime.station_type unit unit
    (CyShioTime.mk unit unit
       (CyShioTime.set_fScaleFactor unit unit
          (CyShioTime.set_fUserUnits unit unit (Samples.station_of_type "P")
                                     (-1)) 1%Q))
  = "P"%char.
Proof.
  exact (station_type_is_the_loaded_tag unit unit Samples.files
           (fun path_ => path_) Samples.blank_station
           (Samples.read_station "P") (CyShioTime.set_fUserUnits unit unit)
           "tides.txt" true 1%Q _ eq_refl).
Defined.

(** *** Construction *)

(** C8.  Constructing the tidal provider fails exactly when the station
    file is missing or cannot be read: a missing file raises [IOError], a
    file that [ReadTimeValues] rejects (non-zero error code) raises
    [ValueError]; otherwise the construction succeeds, with the loaded
    station after [SetUserUnits(-1)] and with the requested scale factor. *)
Theorem construct_fails_iff_unreadable :
  forall (EbbFloodData HighLowData : Type)
         (path_exists : string -> bool) (normpath : string -> string)
         (ShioTimeValue_c_new :
            CyShioTime.ShioTimeValue_c EbbFloodData HighLowData)
         (ReadTimeValues :
            CyShioTime.ShioTimeValue_c EbbFloodData HighLowData -> string ->
            OSErr * CyShioTime.ShioTimeValue_c EbbFloodData HighLowData)
         (SetUserUnits :
            CyShioTime.ShioTimeValue_c EbbFloodData HighLowData -> Z ->
            CyShioTime.ShioTimeValue_c EbbFloodData HighLowData)
         (path_ : string) (daylight_savings_off : bool) (scale_factor : Q),
    let loaded :=
      ReadTimeValues
        (CyShioTime.set_daylight_savings_off _ _ ShioTimeValue_c_new
                                             daylight_savings_off)
        (normpath path_) in
    let object :=
      CyShioTime.construct _ _ path_exists normpath ShioTimeValue_c_new
                           ReadTimeValues SetUserUnits path_
                           daylight_savings_off scale_factor in
    (raises object <-> path_exists path_ = false \/ fst loaded <> 0) /\
    (returns object <-> path_exists path_ = true /\ fst loaded = 0) /\
    (path_exists path_ = false ->
     object = Raise (IOError ("No such file: " ++ path_))) /\
    (path_exists path_ = true -> fst loaded <> 0 ->
     object
     = Raise (ValueError
         "File could not be correctly read by ShioTimeValue_c.ReadTimeValues(...)")) /\
    (path_exists path_ = true -> fst loaded = 0 ->
     object
     = Return (CyShioTime.mk _ _
                 (CyShioTime.set_fScaleFactor _ _
                    (SetUserUnits (snd loaded) (-1)) scale_factor))).
Proof.
  intros EbbFloodData HighLowData path_exists normpath new0 ReadTimeValues
         SetUserUnits path_ dso sf loaded object.
  subst object.
  unfold CyShioTime.construct, CyShioTime.__init__, CyShioTime.__cinit__.
  cbn [CyShioTime.shio]. fold loaded.
  destruct (path_exists path_).
  - destruct loaded as [err s]. cbn [fst snd].
    destruct (Z.eqb_spec err 0) as [E | E]; cbn [negb].
    + split; [| split; [| split; [| split]]].
      * split; [intros [e He]; discriminate He | intros [H | H]; congruence].
      * split; [intros _; split; [reflexivity | exact E]
               | intros _; eexists; reflexivity].
      * intros H; discriminate H.
      * intros _ H; congruence.
      * intros _ _; reflexivity.
    + split; [| split; [| split; [| split]]].
      * split; [intros _; now right | intros _; eexists; reflexivity].
      * split; [intros [a Ha]; discriminate Ha | intros [_ H]; congruence].
      * intros H; discriminate H.
      * intros _ _; reflexivity.
      * intros _ H; congruence.
  - split; [| split; [| split; [| split]]].
    + split; [intros _; now left | intros _; eexists; reflexivity].
    + split; [intros [a Ha]; discriminate Ha | intros [H _]; discriminate H].
    + intros _; reflexivity.
    + intros H; discriminate H.
    + intros H; discriminate H.
Qed.

(** A path that does not exist raises [IOError]. *)
Lemma construct_fails_iff_unreadable_witness :
  CyShioTime.construct unit unit Samples.files (fun path_ => path_)
    Samples.blank_station (Samples.read_station "C")
    (CyShioTime.set_fUserUnits unit unit) "missing.txt" true 1%Q
  = Raise (IOError "No such file: missing.txt").
Proof.
  exact (proj1 (proj2 (proj2
    (construct_fails_iff_unreadable unit unit Samples.files
       (fun path_ => path_) Samples.blank_station (Samples.read_station "C")
       (CyShioTime.set_fUserUnits unit unit) "missing.txt" true 1%Q)))
    eq_refl).
Defined.

(** ** Velocity scale of the pattern mover *)

(** C3.  When a time-series scale is configured and the grid has no value
    at the reference point (the point lies outside the grid bounds),
    [ComputeVelocityScale] fails with [ReferencePointUnresolvable], and no
    step is prepared from it: [PrepareForModelStep] fails too, with any
    arguments, so no step-ready mover carrying a scale (stale or zero) is
    produced; when the mover is run-ready and the step length positive, the
    failure reported is [ReferencePointUnresolvable]. *)
Theorem unresolvable_reference_point_fails :
  forall (speed : VelocityRec -> Q) (m : CATSMover_c.t)
         (g : CATSMover_c.TGridVel) (model_time : Seconds),
    CATSMover_c.scaleType m = CATSMover_c.SCALE_TIMESERIES ->
    CATSMover_c.fGrid m = Some g ->
    CATSMover_c.hasValueAt g (CATSMover_c.refP m) = false ->
    CATSMover_c.ComputeVelocityScale speed m model_time
    = Failed ReferencePointUnresolvable /\
    forall (step_len : Seconds) (uncertain : bool) (numSets : Z)
           (setSizes : list Z),
      (exists f,
          CATSMover_c.PrepareForModelStep speed m model_time step_len
                                          uncertain numSets setSizes
          = Failed f) /\
      (CATSMover_c.lifecycle m <> Uninitialized -> 0 < step_len ->
       CATSMover_c.PrepareForModelStep speed m model_time step_len
                                       uncertain numSets setSizes
       = Failed ReferencePointUnresolvable).
Proof.
  intros speed m g model_time Hscale Hgrid Hout.
  assert (Hcompute :
    CATSMover_c.ComputeVelocityScale speed m model_time
    = Failed ReferencePointUnresolvable).
  { unfold CATSMover_c.ComputeVelocityScale.
    rewrite Hscale, Hgrid, Hout. reflexivity. }
  split; [exact Hcompute |].
  intros step_len uncertain0 numSets0 setSizes0.
  unfold CATSMover_c.PrepareForModelStep. rewrite Hcompute.
  split.
  - destruct (CATSMover_c.lifecycle m); [eexists; reflexivity | |];
      destruct (step_len <=? 0); eexists; reflexivity.
  - intros Hlife Hlen.
    destruct (Z.leb_spec step_len 0) as [Hle | Hgt]; [lia |].
    destruct (CATSMover_c.lifecycle m); [congruence | |]; reflexivity.
Qed.

(** The sample pattern mover, with its reference point (5, 5) outside the
    unit square and a scale of 7 left from before, fails to compute a scale
    and to prepare a step. *)
Lemma unresolvable_reference_point_fails_witness :
  CATSMover_c.ComputeVelocityScale Samples.speed Samples.pattern_mover 0
  = Failed ReferencePointUnresolvable /\
  CATSMover_c.PrepareForModelStep Samples.speed Samples.pattern_mover 0 3600
                                  false 0 []
  = Failed ReferencePointUnresolvable.
Proof.
  destruct (unresolvable_reference_point_fails Samples.speed
              Samples.pattern_mover Samples.unit_square_grid 0
              eq_refl eq_refl eq_refl) as [Hcompute Hstep].
  split; [exact Hcompute |].
  apply (proj2 (Hstep 3600 false 0 [])); [discriminate | reflexivity].
Defined.

(** * Further properties of the embedded code *)

(** ** [CyWindMover.get_time_value] *)

Lemma wind_get_time_value_loop_returns (cpp : WindMover_c.api)
      (m : WindMover_c.t) :
  forall times vs,
    CyWindMover.get_time_value_loop cpp m times = Return vs <->
    Forall (fun t0 => fst (WindMover_c.GetTimeValue cpp m t0) = 0) times /\
    vs = map (fun t0 => snd (WindMover_c.GetTimeValue cpp m t0)) times.
Proof.
  induction times as [|t0 rest IH]; intros vs.
  - cbn. split.
    + intros H. inversion H. split; [constructor | reflexivity].
    + intros [_ ->]. reflexivity.
  - cbn [CyWindMover.get_time_value_loop map].
    destruct (WindMover_c.GetTimeValue cpp m t0) as [err vel] eqn:Hsample.
    cbn [fst snd].
    destruct (Z.eqb_spec err 0) as [E | E]; cbn [negb].
    + assert (Hhd : fst (WindMover_c.GetTimeValue cpp m t0) = 0)
        by (rewrite Hsample; exact E).
      destruct (CyWindMover.get_time_value_loop cpp m rest) as [vs'|e] eqn:Hrest;
        cbn [bind].
      * destruct (proj1 (IH vs') eq_refl) as [Hall Hvs]. split.
        -- intros H. inversion H. split; [|rewrite Hvs; reflexivity].
           constructor; [exact Hhd | exact Hall].
        -- intros [_ ->]. rewrite <- Hvs. reflexivity.
      * split; [discriminate |].
        intros [Hall _]. inversion Hall as [|? ? _ Hall']; subst.
        assert (Hret : (Raise e : outcome (list VelocityRec))
                       = Return (map (fun t1 =>
                                  snd (WindMover_c.GetTimeValue cpp m t1)) rest))
          by (apply IH; split; [exact Hall' | reflexivity]).
        discriminate Hret.
    + split; [discriminate |].
      intros [Hall _]. inversion Hall as [|? ? Hhd _]; subst.
      rewrite Hsample in Hhd. cbn in Hhd. contradiction.
Qed.

Lemma wind_get_time_value_loop_raises (cpp : WindMover_c.api)
      (m : WindMover_c.t) :
  forall times e,
    CyWindMover.get_time_value_loop cpp m times = Raise e ->
    e = ValueError "" /\
    Exists (fun t0 => fst (WindMover_c.GetTimeValue cpp m t0) <> 0) times.
Proof.
  induction times as [|t0 rest IH]; intros e; [discriminate|].
  cbn [CyWindMover.get_time_value_loop].
  destruct (WindMover_c.GetTimeValue cpp m t0) as [err vel] eqn:Hsample.
  destruct (Z.eqb_spec err 0) as [E | E]; cbn [negb].
  - destruct (CyWindMover.get_time_value_loop cpp m rest) as [vs'|e'];
      cbn [bind]; [discriminate|].
    intros H. inversion H; subst.
    destruct (IH e eq_refl) as [He Hex]. split; [exact He |].
    apply Exists_cons_tl. exact Hex.
  - intros H. inversion H; subst. split; [reflexivity |].
    apply Exists_cons_hd. rewrite Hsample. exact E.
Qed.

(** X1.  [get_time_value] of the wind mover returns exactly when every
    requested time is sampled with error code 0, and then holds one velocity
    per requested time, in the order requested; otherwise it raises a
    [ValueError] (with no message) and some requested time has a non-zero
    code.  An empty request returns the empty array.  The object is left as
    it was. *)
Theorem wind_get_time_value_all_or_nothing :
  forall (cpp : WindMover_c.api) (self : CyWindMover.t)
         (modelTime : list Seconds),
    let sample := WindMover_c.GetTimeValue cpp (CyWindMover.mover self) in
    let call := CyWindMover.get_time_value cpp self modelTime in
    snd call = self /\
    (forall vs,
        fst call = Return vs <->
        Forall (fun t0 => fst (sample t0) = 0) modelTime /\
        vs = map (fun t0 => snd (sample t0)) modelTime) /\
    (forall e,
        fst call = Raise e ->
        e = ValueError "" /\
        Exists (fun t0 => fst (sample t0) <> 0) modelTime) /\
    (modelTime = [] -> fst call = Return []).
Proof.
  intros cpp self modelTime sample call. subst call sample.
  unfold CyWindMover.get_time_value. cbn [fst snd].
  split; [reflexivity |]. split; [| split].
  - intros vs. apply wind_get_time_value_loop_returns.
  - intros e. apply wind_get_time_value_loop_raises.
  - intros ->. reflexivity.
Qed.

(** With a provider that has no data after time 100, asking for times 0, 50
    and 100 returns three velocities. *)
Lemma wind_get_time_value_all_or_nothing_witness :
  fst (CyWindMover.get_time_value Samples.engine
         (snd (CyWindMover.set_ossm Samples.engine Samples.wind_mover
                 Fixtures.short_provider)) [0; 50; 100])
  = Return [ {| u := 0%Q; v := 0%Q |}; {| u := 50%Q; v := 0%Q |};
             {| u := 100%Q; v := 0%Q |} ].
Proof.
  apply (proj1 (proj2
    (wind_get_time_value_all_or_nothing Samples.engine
       (snd (CyWindMover.set_ossm Samples.engine Samples.wind_mover
               Fixtures.short_provider)) [0; 50; 100]))).
  split; [repeat constructor | reflexivity].
Defined.

(** ** [CyWindMover.prepare_for_model_step] and [get_move] *)

(** X2.  [prepare_for_model_step] with [numSets = 0] ignores [setSizes] and
    prepares the step with uncertainty off; with [numSets <> 0] and an empty
    [setSizes] it raises [IndexError] before the mover is reached, and with
    a non-empty [setSizes] it prepares the step with uncertainty on.  When
    the mover is reached the call raises exactly when the error code is not
    0, the exception is an [OSError], and the object holds the mover as the
    C++ call left it, also when the call raises. *)
Theorem prepare_for_model_step_dispatch :
  forall (cpp : WindMover_c.api) (self : CyWindMover.t)
         (model_time step_len : Seconds) (numSets : Z) (setSizes : list Z),
    let call :=
      CyWindMover.prepare_for_model_step cpp self model_time step_len numSets
                                         setSizes in
    let reached (uncertain : bool) (n : Z) (sizes : list Z) :=
      let under :=
        WindMover_c.PrepareForModelStep cpp (CyWindMover.mover self)
          model_time step_len uncertain n sizes in
      (raises (fst call) <-> fst under <> 0) /\
      (forall e, fst call = Raise e -> exists msg, e = OSError msg) /\
      CyWindMover.mover (snd call) = snd under in
    (numSets = 0 -> reached false 0 []) /\
    (numSets <> 0 -> setSizes = [] -> call = (Raise IndexError, self)) /\
    (numSets <> 0 -> setSizes <> [] -> reached true numSets setSizes).
Proof.
  intros cpp self model_time step_len numSets0 setSizes0 call reached.
  assert (Hfinish :
    forall unc n sizes,
      call =
      (let (err, m) :=
         WindMover_c.PrepareForModelStep cpp (CyWindMover.mover self)
           model_time step_len unc n sizes in
       if negb (err =? 0)
       then (Raise (OSError
               "WindMover_c.PreareForModelStep returned an error."),
             CyWindMover.mk m)
       else (Return tt, CyWindMover.mk m)) ->
      reached unc n sizes).
  { intros unc n sizes Hcall. subst reached. cbv beta zeta. rewrite Hcall.
    destruct (WindMover_c.PrepareForModelStep cpp (CyWindMover.mover self)
                model_time step_len unc n sizes) as [err m].
    cbn [fst snd].
    destruct (Z.eqb_spec err 0) as [E | E]; cbn [negb fst snd CyWindMover.mover].
    - split; [| split; [| reflexivity]].
      + split; [intros [e He]; discriminate He | intros H; contradiction].
      + intros e He; discriminate He.
    - split; [| split; [| reflexivity]].
      + split; [intros _; exact E | intros _; eexists; reflexivity].
      + intros e He. inversion He. eexists; reflexivity. }
  subst call. unfold CyWindMover.prepare_for_model_step in *.
  split; [| split].
  - intros ->. apply Hfinish. reflexivity.
  - intros Hn ->. destruct (Z.eqb_spec numSets0 0); [contradiction | reflexivity].
  - intros Hn Hsizes. apply Hfinish.
    destruct (Z.eqb_spec numSets0 0); [contradiction |].
    destruct setSizes0; [contradiction | reflexivity].
Qed.

(** On the sample mover, made run-ready, a step with one set of three
    particles is prepared with uncertainty on. *)
Lemma prepare_for_model_step_dispatch_witness :
  fst (CyWindMover.prepare_for_model_step Samples.engine
         (snd (CyWindMover.prepare_for_model_run Samples.engine
                 Samples.wind_mover)) 0 900 1 [3])
  = Return tt /\
  WindMover_c.lifecycle
    (CyWindMover.mover
       (snd (CyWindMover.prepare_for_model_step Samples.engine
               (snd (CyWindMover.prepare_for_model_run Samples.engine
                       Samples.wind_mover)) 0 900 1 [3])))
  = StepReady {| uncertain := true; numSets := 1; setSizes := [3] |}.
Proof.
  destruct (proj2 (proj2
    (prepare_for_model_step_dispatch Samples.engine
       (snd (CyWindMover.prepare_for_model_run Samples.engine
               Samples.wind_mover)) 0 900 1 [3]))
    ltac:(discriminate) ltac:(discriminate)) as (_ & _ & Hmover).
  split; [reflexivity |].
  rewrite Hmover. reflexivity.
Defined.

(** X3.  [get_move] called with an empty [ref_points], [delta], [windages]
    or [LE_status] array raises [IndexError] and leaves the object as it
    was, whatever the mover behind it would answer. *)
Theorem get_move_empty_array_raises :
  forall (cpp : WindMover_c.api) (self : CyWindMover.t)
         (model_time step_len : Seconds) (ref_points delta : list WorldPoint3D)
         (windages : list Q) (LE_status : list Z) (spill_type : LEType)
         (spill_ID : Z),
    ref_points = [] \/ delta = [] \/ windages = [] \/ LE_status = [] ->
    CyWindMover.get_move cpp self model_time step_len ref_points delta
                         windages LE_status spill_type spill_ID
    = (Raise IndexError, self).
Proof.
  intros cpp self model_time step_len ref_points delta windages LE_status
         spill_type spill_ID H.
  unfold CyWindMover.get_move.
  destruct ref_points, delta, windages, LE_status; cbn [CyWindMover.is_empty orb];
    try reflexivity.
  destruct H as [H | [H | [H | H]]]; discriminate H.
Qed.

(** No windage given for the two particles: [IndexError]. *)
Lemma get_move_empty_array_raises_witness :
  CyWindMover.get_move Samples.engine Samples.prepared 0 3600
    [Samples.point 1 2; Samples.point 3 4]
    [Samples.point 0 0; Samples.point 0 0] [] [2; 2] FORECAST_LE 0
  = (Raise IndexError, Samples.prepared).
Proof.
  apply get_move_empty_array_raises. right; right; left; reflexivity.
Defined.

(** ** Configuration of a [CyWindMover] *)

(** X4.  [__init__], on an object in any state, stores the four tunables so
    that the getters return them, puts the mover in constant mode with the
    wind (0, 0), and touches nothing else: a provider attached before stays
    attached.  With the default arguments the tunables are 10800, 0, 2 and
    0.4, whatever the C++ constructor left in them. *)
Theorem init_resets_to_constant_zero_wind :
  forall (cpp : WindMover_c.api) (self : CyWindMover.t)
         (duration time_delay speed_scale angle_scale : Q),
    let self' :=
      CyWindMover.__init__ self duration time_delay speed_scale angle_scale in
    (CyWindMover.uncertain_duration_get self' = duration /\
     CyWindMover.uncertain_time_delay_get self' = time_delay /\
     CyWindMover.uncertain_speed_scale_get self' = speed_scale /\
     CyWindMover.uncertain_angle_scale_get self' = angle_scale) /\
    (WindMover_c.fIsConstantWind (CyWindMover.mover self') = true /\
     WindMover_c.fConstantValue (CyWindMover.mover self') = zeroVelocity) /\
    (WindMover_c.timeDep (CyWindMover.mover self')
     = WindMover_c.timeDep (CyWindMover.mover self) /\
     WindMover_c.lifecycle (CyWindMover.mover self')
     = WindMover_c.lifecycle (CyWindMover.mover self) /\
     WindMover_c.fUncertainty (CyWindMover.mover self')
     = WindMover_c.fUncertainty (CyWindMover.mover self)) /\
    (CyWindMover.uncertain_duration_get (CyWindMover.create cpp) = 10800%Q /\
     CyWindMover.uncertain_time_delay_get (CyWindMover.create cpp) = 0%Q /\
     CyWindMover.uncertain_speed_scale_get (CyWindMover.create cpp) = 2%Q /\
     CyWindMover.uncertain_angle_scale_get (CyWindMover.create cpp)
     = (4 # 10)%Q).
Proof.
  intros cpp [m] duration time_delay speed_scale angle_scale self'.
  subst self'. cbn. repeat split.
Qed.

(** X5.  The four tunable setters act on separate members: two setters of
    different tunables give the same object in either order, and setting the
    same tunable twice leaves the object as the second call alone would. *)
Theorem tunable_setters_commute :
  forall (self : CyWindMover.t) (a b : Q),
    let dur s x := snd (CyWindMover.uncertain_duration_set s x) in
    let del s x := snd (CyWindMover.uncertain_time_delay_set s x) in
    let spd s x := snd (CyWindMover.uncertain_speed_scale_set s x) in
    let ang s x := snd (CyWindMover.uncertain_angle_scale_set s x) in
    (del (dur self a) b = dur (del self b) a /\
     spd (dur self a) b = dur (spd self b) a /\
     ang (dur self a) b = dur (ang self b) a /\
     spd (del self a) b = del (spd self b) a /\
     ang (del self a) b = del (ang self b) a /\
     ang (spd self a) b = spd (ang self b) a) /\
    (dur (dur self a) b = dur self b /\
     del (del self a) b = del self b /\
     spd (spd self a) b = spd self b /\
     ang (ang self a) b = ang self b).
Proof.
  intros [m] a b dur del spd ang. subst dur del spd ang. cbn.
  repeat split.
Qed.

(** X6.  [set_constant_wind] stores the pair it is given and puts the mover
    in constant mode; it keeps the four tunables and does not detach a
    provider attached before.  A second call replaces the pair of the first
    entirely. *)
Theorem set_constant_wind_stores_pair :
  forall (self : CyWindMover.t) (windU windV windU' windV' : Q),
    let call := CyWindMover.set_constant_wind self windU windV in
    let self' := snd call in
    fst call = Return tt /\
    WindMover_c.fConstantValue (CyWindMover.mover self')
    = {| u := windU; v := windV |} /\
    WindMover_c.fIsConstantWind (CyWindMover.mover self') = true /\
    (CyWindMover.uncertain_duration_get self'
     = CyWindMover.uncertain_duration_get self /\
     CyWindMover.uncertain_time_delay_get self'
     = CyWindMover.uncertain_time_delay_get self /\
     CyWindMover.uncertain_speed_scale_get self'
     = CyWindMover.uncertain_speed_scale_get self /\
     CyWindMover.uncertain_angle_scale_get self'
     = CyWindMover.uncertain_angle_scale_get self) /\
    WindMover_c.timeDep (CyWindMover.mover self')
    = WindMover_c.timeDep (CyWindMover.mover self) /\
    snd (CyWindMover.set_constant_wind self' windU' windV')
    = snd (CyWindMover.set_constant_wind self windU' windV').
Proof.
  intros [m] windU windV windU' windV' call self'. subst self' call. cbn.
  repeat split.
Qed.

Lemma exec_configuration_mode cpp self c :
  WindMoverConfig.is_configuration_call c = true ->
  WindMover_c.fIsConstantWind
    (CyWindMover.mover (WindMoverSession.exec cpp self c))
  = match WindMoverConfig.assigned_mode c with
    | Some b => b
    | None => WindMover_c.fIsConstantWind (CyWindMover.mover self)
    end.
Proof.
  destruct self as [m].
  destruct c; cbn; intros H; try discriminate H; reflexivity.
Qed.

(** X7.  Through any sequence of configuration calls (constructor body,
    tunable setters, [set_constant_wind], [set_ossm]), the mode flag
    [fIsConstantWind] is the one assigned by the last call that assigns it:
    constant after [__init__] or [set_constant_wind], not constant after
    [set_ossm], whatever the C++ [SetTimeDep] does; the tunable setters do
    not change it. *)
Theorem mode_is_the_last_assigned :
  forall (cpp : WindMover_c.api) (calls : list WindMoverSession.call)
         (self : CyWindMover.t),
    forallb WindMoverConfig.is_configuration_call calls = true ->
    WindMover_c.fIsConstantWind
      (CyWindMover.mover (WindMoverSession.run cpp self calls))
    = WindMoverConfig.mode_after
        (WindMover_c.fIsConstantWind (CyWindMover.mover self)) calls.
Proof.
  intros cpp. induction calls as [|c calls IH]; intros self Hall;
    [reflexivity|].
  cbn in Hall. apply andb_true_iff in Hall. destruct Hall as [Hc Hrest].
  specialize (IH (WindMoverSession.exec cpp self c) Hrest).
  unfold WindMoverSession.run, WindMoverConfig.mode_after in *.
  cbn [fold_left]. rewrite IH.
  rewrite (exec_configuration_mode cpp self c Hc). reflexivity.
Qed.

(** Attaching the ramp provider, changing a tunable, then setting a
    constant wind leaves the sample mover in constant mode. *)
Lemma mode_is_the_last_assigned_witness :
  WindMover_c.fIsConstantWind
    (CyWindMover.mover
       (WindMoverSession.run Samples.engine Samples.wind_mover
          [ WindMoverSession.Call_set_ossm Samples.ramp;
            WindMoverSession.Call_set_uncertain_duration 60%Q;
            WindMoverSession.Call_set_constant_wind 3%Q 4%Q ]))
  = true.
Proof.
  exact (mode_is_the_last_assigned Samples.engine
           [ WindMoverSession.Call_set_ossm Samples.ramp;
             WindMoverSession.Call_set_uncertain_duration 60%Q;
             WindMoverSession.Call_set_constant_wind 3%Q 4%Q ]
           Samples.wind_mover eq_refl).
Defined.

(** ** [CyShioTime.get_time_value] *)

Section ShioTimeValues.

Variables EbbFloodData HighLowData : Type.

Let Shio := CyShioTime.ShioTimeValue_c EbbFloodData HighLowData.

Variable GetTimeValue : Shio -> Seconds -> OSErr * VelocityRec * Shio.

Lemma shio_loop_length :
  forall times s vs,
    fst (CyShioTime.get_time_value_loop _ _ GetTimeValue s times) = Return vs ->
    List.length vs = List.length times.
Proof.
  induction times as [|t0 rest IH]; intros s vs.
  - cbn. intros H. inversion H. reflexivity.
  - cbn [CyShioTime.get_time_value_loop].
    destruct (GetTimeValue s t0) as [[err vel] s1].
    destruct (negb (err =? 0)); [discriminate|].
    specialize (IH s1).
    destruct (CyShioTime.get_time_value_loop _ _ GetTimeValue s1 rest)
      as [[vs'|e] s2]; cbn [fst bind] in *; [|discriminate].
    intros H. inversion H. cbn [List.length]. rewrite (IH vs' eq_refl).
    reflexivity.
Qed.

Lemma shio_loop_raises :
  forall times s e,
    fst (CyShioTime.get_time_value_loop _ _ GetTimeValue s times) = Raise e ->
    exists msg, e = ValueError msg.
Proof.
  induction times as [|t0 rest IH]; intros s e; [discriminate|].
  cbn [CyShioTime.get_time_value_loop].
  destruct (GetTimeValue s t0) as [[err vel] s1].
  destruct (negb (err =? 0)).
  - cbn. intros H. inversion H. eexists; reflexivity.
  - specialize (IH s1).
    destruct (CyShioTime.get_time_value_loop _ _ GetTimeValue s1 rest)
      as [[vs'|e'] s2]; cbn [fst bind] in *; [discriminate|].
    intros H. inversion H; subst. apply IH. reflexivity.
Qed.

Lemma shio_loop_app :
  forall a b s,
    CyShioTime.get_time_value_loop _ _ GetTimeValue s (a ++ b)
    = match CyShioTime.get_time_value_loop _ _ GetTimeValue s a with
      | (Raise e, s1) => (Raise e, s1)
      | (Return va, s1) =>
          match CyShioTime.get_time_value_loop _ _ GetTimeValue s1 b with
          | (Raise e, s2) => (Raise e, s2)
          | (Return vb, s2) => (Return (va ++ vb), s2)
          end
      end.
Proof.
  induction a as [|t0 rest IH]; intros b s.
  - cbn [app CyShioTime.get_time_value_loop].
    destruct (CyShioTime.get_time_value_loop _ _ GetTimeValue s b)
      as [[vb|e] s2]; reflexivity.
  - cbn [app CyShioTime.get_time_value_loop].
    destruct (GetTimeValue s t0) as [[err vel] s1].
    destruct (negb (err =? 0)); [reflexivity|].
    rewrite IH.
    destruct (CyShioTime.get_time_value_loop _ _ GetTimeValue s1 rest)
      as [[va|e] s2]; cbn [bind]; [|reflexivity].
    destruct (CyShioTime.get_time_value_loop _ _ GetTimeValue s2 b)
      as [[vb|e] s3]; reflexivity.
Qed.

End ShioTimeValues.

(** X8.  [get_time_value] of the tidal provider, when it returns, holds one
    velocity per requested time; when it raises, the exception is a
    [ValueError]; an empty request returns the empty array and leaves the
    object as it was. *)
Theorem shio_get_time_value_shape :
  forall (EbbFloodData HighLowData : Type)
         (GetTimeValue :
            CyShioTime.ShioTimeValue_c EbbFloodData HighLowData -> Seconds ->
            OSErr * VelocityRec *
            CyShioTime.ShioTimeValue_c EbbFloodData HighLowData)
         (self : CyShioTime.t EbbFloodData HighLowData)
         (modelTime : list Seconds),
    let call := CyShioTime.get_time_value _ _ GetTimeValue self modelTime in
    (forall vs, fst call = Return vs ->
                List.length vs = List.length modelTime) /\
    (forall e, fst call = Raise e -> exists msg, e = ValueError msg) /\
    (modelTime = [] -> call = (Return [], self)).
Proof.
  intros EbbFloodData HighLowData GetTimeValue [s] modelTime call.
  subst call. unfold CyShioTime.get_time_value. cbn [CyShioTime.shio].
  split; [| split].
  - intros vs.
    pose proof (shio_loop_length _ _ GetTimeValue modelTime s vs) as H.
    destruct (CyShioTime.get_time_value_loop _ _ GetTimeValue s modelTime).
    exact H.
  - intros e.
    pose proof (shio_loop_raises _ _ GetTimeValue modelTime s e) as H.
    destruct (CyShioTime.get_time_value_loop _ _ GetTimeValue s modelTime).
    exact H.
  - intros ->. reflexivity.
Qed.

(** X9.  Asking the tidal provider for the times [a ++ b] is asking for [a]
    and then, on the object as that call left it, for [b]: if the first
    request raises, no time of [b] is evaluated and the object is as the
    failing call left it; otherwise the result is the two arrays one after
    the other. *)
Theorem shio_get_time_value_app :
  forall (EbbFloodData HighLowData : Type)
         (GetTimeValue :
            CyShioTime.ShioTimeValue_c EbbFloodData HighLowData -> Seconds ->
            OSErr * VelocityRec *
            CyShioTime.ShioTimeValue_c EbbFloodData HighLowData)
         (self : CyShioTime.t EbbFloodData HighLowData)
         (a b : list Seconds),
    CyShioTime.get_time_value _ _ GetTimeValue self (a ++ b)
    = match CyShioTime.get_time_value _ _ GetTimeValue self a with
      | (Raise e, self1) => (Raise e, self1)
      | (Return va, self1) =>
          match CyShioTime.get_time_value _ _ GetTimeValue self1 b with
          | (Raise e, self2) => (Raise e, self2)
          | (Return vb, self2) => (Return (va ++ vb), self2)
          end
      end.
Proof.
  intros EbbFloodData HighLowData GetTimeValue [s] a b.
  unfold CyShioTime.get_time_value. cbn [CyShioTime.shio].
  rewrite shio_loop_app.
  destruct (CyShioTime.get_time_value_loop _ _ GetTimeValue s a)
    as [[va|e] s1]; [|reflexivity].
  cbn [CyShioTime.shio].
  destruct (CyShioTime.get_time_value_loop _ _ GetTimeValue s1 b)
    as [[vb|e] s2]; reflexivity.
Qed.

(** ** Derived tables of the tidal provider *)

(** X10.  A derived table is never returned empty and never for the wrong
    station: when [get_ebb_flood] ([get_high_low]) returns an array, the
    array has at least one record and the station, as the time-value
    computation left it, is of type [C] ([H]); when it returns an integer,
    the integer is 0 and the station is not of that type.  No station gets
    an array from both calls for the same request. *)
Theorem derived_table_only_for_matching_station :
  forall (EbbFloodData HighLowData : Type)
         (GetTimeValue :
            CyShioTime.ShioTimeValue_c EbbFloodData HighLowData -> Seconds ->
            OSErr * VelocityRec *
            CyShioTime.ShioTimeValue_c EbbFloodData HighLowData)
         (self : CyShioTime.t EbbFloodData HighLowData)
         (modelTime : list Seconds),
    let evaluated :=
      snd (CyShioTime.get_time_value _ _ GetTimeValue self modelTime) in
    let ebb_flood :=
      fst (CyShioTime.get_ebb_flood _ _ GetTimeValue self modelTime) in
    let high_low :=
      fst (CyShioTime.get_high_low _ _ GetTimeValue self modelTime) in
    (forall rows, ebb_flood = Return (CyShioTime.PyNdarray rows) ->
                  rows <> [] /\
                  CyShioTime.station_type _ _ evaluated = "C"%char) /\
    (forall rows, high_low = Return (CyShioTime.PyNdarray rows) ->
                  rows <> [] /\
                  CyShioTime.station_type _ _ evaluated = "H"%char) /\
    (forall n, ebb_flood = Return (CyShioTime.PyInt n) ->
               n = 0 /\ CyShioTime.station_type _ _ evaluated <> "C"%char) /\
    (forall n, high_low = Return (CyShioTime.PyInt n) ->
               n = 0 /\ CyShioTime.station_type _ _ evaluated <> "H"%char) /\
    ~ (exists rows rows',
          ebb_flood = Return (CyShioTime.PyNdarray rows) /\
          high_low = Return (CyShioTime.PyNdarray rows')).
Proof.
  intros EbbFloodData HighLowData GetTimeValue self modelTime evaluated
         ebb_flood high_low.
  assert (Hebb :
    forall rows, ebb_flood = Return (CyShioTime.PyNdarray rows) ->
                 rows <> [] /\
                 CyShioTime.station_type _ _ evaluated = "C"%char).
  { subst ebb_flood evaluated. unfold CyShioTime.get_ebb_flood.
    destruct (CyShioTime.get_time_value _ _ GetTimeValue self modelTime)
      as [[vs|e] self1]; cbn [fst snd]; [|discriminate].
    unfold CyShioTime.station_type.
    destruct (Ascii.eqb_spec
                (CyShioTime.fStationType _ _ (CyShioTime.shio _ _ self1)) "C")
      as [E | E]; cbn [fst]; [|discriminate].
    intros rows.
    destruct (CyShioTime.fEbbFloodDataHdl _ _ (CyShioTime.shio _ _ self1));
      cbn; [discriminate|].
    intros H. inversion H. split; [discriminate | exact E]. }
  assert (Hhigh :
    forall rows, high_low = Return (CyShioTime.PyNdarray rows) ->
                 rows <> [] /\
                 CyShioTime.station_type _ _ evaluated = "H"%char).
  { subst high_low evaluated. unfold CyShioTime.get_high_low.
    destruct (CyShioTime.get_time_value _ _ GetTimeValue self modelTime)
      as [[vs|e] self1]; cbn [fst snd]; [|discriminate].
    unfold CyShioTime.station_type.
    destruct (Ascii.eqb_spec
                (CyShioTime.fStationType _ _ (CyShioTime.shio _ _ self1)) "H")
      as [E | E]; cbn [fst]; [|discriminate].
    intros rows.
    destruct (CyShioTime.get_time_value _ _ GetTimeValue self1 modelTime)
      as [[vs2|e2] self2]; cbn [fst]; [|discriminate].
    destruct (CyShioTime.fHighLowDataHdl _ _ (CyShioTime.shio _ _ self2));
      cbn; [discriminate|].
    intros H. inversion H. split; [discriminate | exact E]. }
  split; [exact Hebb | split; [exact Hhigh | split; [| split]]].
  - subst ebb_flood evaluated. unfold CyShioTime.get_ebb_flood.
    destruct (CyShioTime.get_time_value _ _ GetTimeValue self modelTime)
      as [[vs|e] self1]; cbn [fst snd]; [|discriminate].
    unfold CyShioTime.station_type.
    destruct (Ascii.eqb_spec
                (CyShioTime.fStationType _ _ (CyShioTime.shio _ _ self1)) "C")
      as [E | E]; cbn [fst].
    + intros n.
      destruct (CyShioTime.fEbbFloodDataHdl _ _ (CyShioTime.shio _ _ self1));
        cbn; discriminate.
    + intros n H. inversion H. split; [reflexivity | exact E].
  - subst high_low evaluated. unfold CyShioTime.get_high_low.
    destruct (CyShioTime.get_time_value _ _ GetTimeValue self modelTime)
      as [[vs|e] self1]; cbn [fst snd]; [|discriminate].
    unfold CyShioTime.station_type.
    destruct (Ascii.eqb_spec
                (CyShioTime.fStationType _ _ (CyShioTime.shio _ _ self1)) "H")
      as [E | E]; cbn [fst].
    + intros n.
      destruct (CyShioTime.get_time_value _ _ GetTimeValue self1 modelTime)
        as [[vs2|e2] self2]; cbn [fst]; [|discriminate].
      destruct (CyShioTime.fHighLowDataHdl _ _ (CyShioTime.shio _ _ self2));
        cbn; discriminate.
    + intros n H. inversion H. split; [reflexivity | exact E].
  - intros (rows & rows' & H1 & H2).
    destruct (Hebb rows H1) as [_ HC]. destruct (Hhigh rows' H2) as [_ HH].
    rewrite HC in HH. discriminate HH.
Qed.

(** ** [CyShioTime.set_shio_yeardata_path] *)

Lemma last_char_app_sep (s : string) (c : ascii) :
  CyShioTime.last_char (s ++ String c EmptyString) = Some c.
Proof.
  induction s as [|a s IH]; [reflexivity|].
  cbn [String.append CyShioTime.last_char]. rewrite IH.
  destruct (s ++ String c EmptyString)%string eqn:E; [|reflexivity].
  destruct s; discriminate E.
Qed.

Lemma last_char_none (s : string) :
  CyShioTime.last_char s = None -> s = EmptyString.
Proof.
  induction s as [|a s IH]; [reflexivity|].
  cbn [CyShioTime.last_char]. destruct s; [discriminate|].
  intros H. specialize (IH H). discriminate IH.
Qed.

(** X11.  [set_shio_yeardata_path] hands the C++ object a path that ends
    with the path separator: the given path itself when it already ends
    with one, otherwise its normalised form followed by the separator; the
    call then raises [ValueError] exactly when [SetYearDataPath] answers a
    non-zero code.  A path that does not exist raises [IOError] and leaves
    the object as it was, without reaching the C++ object. *)
Theorem yeardata_path_gets_trailing_separator :
  forall (EbbFloodData HighLowData : Type)
         (path_exists : string -> bool) (normpath : string -> string)
         (os_sep : ascii)
         (SetYearDataPath :
            CyShioTime.ShioTimeValue_c EbbFloodData HighLowData -> string ->
            OSErr * CyShioTime.ShioTimeValue_c EbbFloodData HighLowData)
         (self : CyShioTime.t EbbFloodData HighLowData)
         (yeardata_path_ : string),
    let call :=
      CyShioTime.set_shio_yeardata_path _ _ path_exists normpath os_sep
                                        SetYearDataPath self yeardata_path_ in
    (path_exists yeardata_path_ = false ->
     call = (Raise (IOError ("No such file: " ++ yeardata_path_)), self)) /\
    (path_exists yeardata_path_ = true -> yeardata_path_ <> EmptyString ->
     exists handed,
       CyShioTime.last_char handed = Some os_sep /\
       (CyShioTime.last_char yeardata_path_ = Some os_sep ->
        handed = yeardata_path_) /\
       (CyShioTime.last_char yeardata_path_ <> Some os_sep ->
        handed = (normpath yeardata_path_ ++ String os_sep EmptyString)%string)
       /\
       let under := SetYearDataPath (CyShioTime.shio _ _ self) handed in
       snd call = CyShioTime.mk _ _ (snd under) /\
       (fst under = 0 -> fst call = Return tt) /\
       (fst under <> 0 -> exists msg, fst call = Raise (ValueError msg))).
Proof.
  intros EbbFloodData HighLowData path_exists normpath os_sep SetYearDataPath
         self p call.
  subst call. unfold CyShioTime.set_shio_yeardata_path.
  split.
  - intros ->. reflexivity.
  - intros -> Hne.
    assert (Hfinish :
      forall q,
        let under := SetYearDataPath (CyShioTime.shio _ _ self) q in
        let r :=
          (let (err, s) := under in
           if negb (err =? 0)
           then (Raise (ValueError
                   "Path could not be correctly be set by ShioTimeValue_c.SetYearDataPath(...)"),
                 CyShioTime.mk _ _ s)
           else (Return tt, CyShioTime.mk _ _ s)) in
        snd r = CyShioTime.mk _ _ (snd under) /\
        (fst under = 0 -> fst r = Return tt) /\
        (fst under <> 0 -> exists msg, fst r = Raise (ValueError msg))).
    { intros q under r. subst r. destruct under as [err s]. cbn [fst snd].
      destruct (Z.eqb_spec err 0) as [E | E]; cbn [negb fst snd].
      - split; [reflexivity | split; [reflexivity | contradiction]].
      - split; [reflexivity | split; [contradiction |]].
        intros _. eexists; reflexivity. }
    destruct (CyShioTime.last_char p) as [c|] eqn:Hlast.
    + destruct (Ascii.eqb_spec c os_sep) as [E | E]; cbn [negb].
      * subst c. exists p.
        split; [exact Hlast | split; [reflexivity | split]].
        -- intros H. contradiction.
        -- apply Hfinish.
      * exists (normpath p ++ String os_sep EmptyString)%string.
        split; [apply last_char_app_sep | split; [| split]].
        -- intros H. inversion H. contradiction.
        -- reflexivity.
        -- apply Hfinish.
    + apply last_char_none in Hlast. contradiction.
Qed.

(** The directory [yeardata], given without a trailing slash, is recorded
    as [yeardata/]. *)
Lemma yeardata_path_gets_trailing_separator_witness :
  CyShioTime.yeardata unit unit
    (snd (CyShioTime.set_shio_yeardata_path unit unit Fixtures.dirs
            (fun path_ => path_) "/"%char Fixtures.store_yeardata
            (CyShioTime.mk unit unit (Samples.station_of_type "C"))
            "yeardata"))
  = "yeardata/"%string.
Proof.
  destruct (proj2
    (yeardata_path_gets_trailing_separator unit unit Fixtures.dirs
       (fun path_ => path_) "/"%char Fixtures.store_yeardata
       (CyShioTime.mk unit unit (Samples.station_of_type "C")) "yeardata")
    eq_refl ltac:(discriminate))
    as (handed & _ & _ & Hhanded & Hsnd & _).
  rewrite Hsnd, (Hhanded ltac:(discriminate)). reflexivity.
Defined.

(** ** Scale factor and daylight-savings flag of the tidal provider *)

(** X12.  The [scale_factor] and [daylight_savings_off] setters of the
    tidal provider are read back by their getters, act on separate members
    (either order gives the same object) and leave the station's name, type,
    file name and year-data path as they were. *)
Theorem shio_setters_round_trip :
  forall (EbbFloodData HighLowData : Type)
         (self : CyShioTime.t EbbFloodData HighLowData)
         (factor : Q) (flag : bool),
    let scaled := CyShioTime.scale_factor_set _ _ self factor in
    let flagged := CyShioTime.daylight_savings_off_set _ _ self flag in
    CyShioTime.scale_factor_get _ _ scaled = factor /\
    CyShioTime.daylight_savings_off_get _ _ flagged = flag /\
    CyShioTime.scale_factor_get _ _ flagged
    = CyShioTime.scale_factor_get _ _ self /\
    CyShioTime.daylight_savings_off_get _ _ scaled
    = CyShioTime.daylight_savings_off_get _ _ self /\
    CyShioTime.daylight_savings_off_set _ _ scaled flag
    = CyShioTime.scale_factor_set _ _ flagged factor /\
    (CyShioTime.station _ _ scaled = CyShioTime.station _ _ self /\
     CyShioTime.station_type _ _ scaled = CyShioTime.station_type _ _ self /\
     CyShioTime.filename _ _ scaled = CyShioTime.filename _ _ self /\
     CyShioTime.yeardata _ _ scaled = CyShioTime.yeardata _ _ self) /\
    (CyShioTime.station _ _ flagged = CyShioTime.station _ _ self /\
     CyShioTime.station_type _ _ flagged = CyShioTime.station_type _ _ self /\
     CyShioTime.filename _ _ flagged = CyShioTime.filename _ _ self /\
     CyShioTime.yeardata _ _ flagged = CyShioTime.yeardata _ _ self).
Proof.
  intros EbbFloodData HighLowData [s] factor flag scaled flagged.
  subst scaled flagged. cbn. repeat split.
Qed.

(** X13.  A tidal provider that was constructed reads back the scale factor
    it was constructed with, and [ReadTimeValues] was handed the normalised
    path on an object already carrying the requested daylight-savings
    flag. *)
Theorem constructed_provider_has_requested_scale :
  forall (EbbFloodData HighLowData : Type)
         (path_exists : string -> bool) (normpath : string -> string)
         (ShioTimeValue_c_new :
            CyShioTime.ShioTimeValue_c EbbFloodData HighLowData)
         (ReadTimeValues :
            CyShioTime.ShioTimeValue_c EbbFloodData HighLowData -> string ->
            OSErr * CyShioTime.ShioTimeValue_c EbbFloodData HighLowData)
         (SetUserUnits :
            CyShioTime.ShioTimeValue_c EbbFloodData HighLowData -> Z ->
            CyShioTime.ShioTimeValue_c EbbFloodData HighLowData)
         (path_ : string) (daylight_savings_off : bool) (scale_factor : Q)
         (self : CyShioTime.t EbbFloodData HighLowData),
    CyShioTime.construct _ _ path_exists normpath ShioTimeValue_c_new
                         ReadTimeValues SetUserUnits path_
                         daylight_savings_off scale_factor
    = Return self ->
    CyShioTime.scale_factor_get _ _ self = scale_factor /\
    exists before,
      CyShioTime.daylight_savings_off _ _ before = daylight_savings_off /\
      fst (ReadTimeValues before (normpath path_)) = 0 /\
      CyShioTime.shio _ _ self
      = CyShioTime.set_fScaleFactor _ _
          (SetUserUnits (snd (ReadTimeValues before (normpath path_))) (-1))
          scale_factor.
Proof.
  intros EbbFloodData HighLowData path_exists normpath new0 ReadTimeValues
         SetUserUnits path_ dso sf self.
  unfold CyShioTime.construct, CyShioTime.__init__, CyShioTime.__cinit__.
  cbn [CyShioTime.shio].
  destruct (path_exists path_); [|discriminate].
  destruct (ReadTimeValues (CyShioTime.set_daylight_savings_off _ _ new0 dso)
                           (normpath path_)) as [err s] eqn:Hread.
  destruct (Z.eqb_spec err 0) as [E | E]; cbn [negb]; [|discriminate].
  intros H. inversion H. split; [reflexivity |].
  exists (CyShioTime.set_daylight_savings_off _ _ new0 dso).
  rewrite Hread. cbn [fst snd CyShioTime.shio].
  split; [reflexivity | split; [exact E | reflexivity]].
Qed.

(** The sample station file, loaded with scale factor 3/2. *)
Lemma constructed_provider_has_requested_scale_witness :
  CyShioTime.scale_factor_get unit unit
    (CyShioTime.mk unit unit
       (CyShioTime.set_fScaleFactor unit unit
          (CyShioTime.set_fUserUnits unit unit (Samples.station_of_type "C")
                                     (-1)) (3 # 2)%Q))
  = (3 # 2)%Q.
Proof.
  exact (proj1
    (constructed_provider_has_requested_scale unit unit Samples.files
       (fun path_ => path_) Samples.blank_station (Samples.read_station "C")
       (CyShioTime.set_fUserUnits unit unit) "tides.txt" false (3 # 2)%Q
       _ eq_refl)).
Defined.

(** ** Inline accessors of [CATSMover_c] *)

(** X14.  [GetRefPosition] reads back the point and depth given to
    [SetRefPosition]; a second [SetRefPosition] replaces the first; setting
    the position that [GetRefPosition] reports changes nothing; and
    [SetRefPosition] leaves the time-series provider, the grid bounds, the
    scale settings and the eddy parameters as they were. *)
Theorem ref_position_round_trip :
  forall (m : CATSMover_c.t) (p0 p1 : WorldPoint) (z0 z1 : Z),
    let m' := CATSMover_c.SetRefPosition m p0 z0 in
    CATSMover_c.GetRefPosition m' = (p0, z0) /\
    CATSMover_c.SetRefPosition m' p1 z1 = CATSMover_c.SetRefPosition m p1 z1 /\
    CATSMover_c.SetRefPosition m (fst (CATSMover_c.GetRefPosition m))
                               (snd (CATSMover_c.GetRefPosition m)) = m /\
    CATSMover_c.GetTimeDep m' = CATSMover_c.GetTimeDep m /\
    CATSMover_c.GetGridBounds m' = CATSMover_c.GetGridBounds m /\
    (CATSMover_c.scaleType m' = CATSMover_c.scaleType m /\
     CATSMover_c.scaleValue m' = CATSMover_c.scaleValue m /\
     CATSMover_c.refScale m' = CATSMover_c.refScale m) /\
    (CATSMover_c.fEddyDiffusion m' = CATSMover_c.fEddyDiffusion m /\
     CATSMover_c.fEddyV0 m' = CATSMover_c.fEddyV0 m).
Proof.
  intros m p0 p1 z0 z1 m'. subst m'. destruct m. cbn. repeat split.
Qed.

(** X15.  [GetTimeDep] reads back the provider given to [SetTimeDep], also
    the null provider; [SetTimeDep] and [SetRefPosition] act on separate
    members, so either order gives the same mover; a second [SetTimeDep]
    replaces the first, and [SetTimeDep] leaves the reference position and
    the grid bounds as they were. *)
Theorem time_dep_round_trip :
  forall (m : CATSMover_c.t) (d d' : option CATSMover_c.TOSSMTimeValue)
         (p0 : WorldPoint) (z0 : Z),
    let m' := CATSMover_c.SetTimeDep m d in
    CATSMover_c.GetTimeDep m' = d /\
    CATSMover_c.SetTimeDep m' d' = CATSMover_c.SetTimeDep m d' /\
    CATSMover_c.SetTimeDep m (CATSMover_c.GetTimeDep m) = m /\
    CATSMover_c.SetRefPosition m' p0 z0
    = CATSMover_c.SetTimeDep (CATSMover_c.SetRefPosition m p0 z0) d /\
    CATSMover_c.GetRefPosition m' = CATSMover_c.GetRefPosition m /\
    CATSMover_c.GetGridBounds m' = CATSMover_c.GetGridBounds m.
Proof.
  intros m d d' p0 z0 m'. subst m'. destruct m. cbn. repeat split.
Qed.

(** ** [TimeValue_g] class identity *)

(** X16.  A [TimeValue_g] object answers [TRUE] to [IAm] for its own class
    id and for every id its base class [ClassID_g] accepts; for any other
    id its answer is the base class's, so it rejects an id exactly when the
    id is not [TYPE_TIMEVALUES] and the base class rejects it. *)
Theorem IAm_own_class_and_base :
  forall (TYPE_TIMEVALUES : TimeValue_g.ClassID)
         (ClassID_g_IAm : TimeValue_g.ClassID -> Boolean)
         (id : TimeValue_g.ClassID),
    let IAm := TimeValue_g.IAm TYPE_TIMEVALUES ClassID_g_IAm in
    IAm (TimeValue_g.GetClassID TYPE_TIMEVALUES) = true /\
    (ClassID_g_IAm id = true -> IAm id = true) /\
    (id <> TYPE_TIMEVALUES -> IAm id = ClassID_g_IAm id) /\
    (IAm id = false <-> id <> TYPE_TIMEVALUES /\ ClassID_g_IAm id = false).
Proof.
  intros ty base id IAm. subst IAm.
  unfold TimeValue_g.IAm, TimeValue_g.GetClassID.
  rewrite Z.eqb_refl.
  destruct (Z.eqb_spec id ty) as [E | E].
  - split; [reflexivity | split; [reflexivity | split; [contradiction |]]].
    split; [discriminate | intros [H _]; contradiction].
  - split; [reflexivity | split; [tauto | split; [reflexivity |]]].
    split; [intros H; split; assumption | intros [_ H]; exact H].
Qed.

(** ** Failures of the derived tables *)

(** X17.  [get_ebb_flood] raises in two cases only: the time-value
    computation for the request raises, and the same exception comes out
    with the object as that computation left it; or the station, after the
    computation, is of type [C] and its ebb/flood handle holds no record,
    which raises [IndexError].  [get_high_low] raises when the first
    time-value computation raises, when the station is then of type [H] and
    the second computation raises, or when after both the high/low handle
    holds no record ([IndexError]). *)
Theorem derived_table_failures :
  forall (EbbFloodData HighLowData : Type)
         (GetTimeValue :
            CyShioTime.ShioTimeValue_c EbbFloodData HighLowData -> Seconds ->
            OSErr * VelocityRec *
            CyShioTime.ShioTimeValue_c EbbFloodData HighLowData)
         (self : CyShioTime.t EbbFloodData HighLowData)
         (modelTime : list Seconds) (e : PyExc),
    let first := CyShioTime.get_time_value _ _ GetTimeValue self modelTime in
    let second :=
      CyShioTime.get_time_value _ _ GetTimeValue (snd first) modelTime in
    (fst (CyShioTime.get_ebb_flood _ _ GetTimeValue self modelTime) = Raise e
     <->
     fst first = Raise e \/
     (returns (fst first) /\
      CyShioTime.station_type _ _ (snd first) = "C"%char /\
      CyShioTime.fEbbFloodDataHdl _ _ (CyShioTime.shio _ _ (snd first)) = [] /\
      e = IndexError)) /\
    (fst first = Raise e ->
     CyShioTime.get_ebb_flood _ _ GetTimeValue self modelTime
     = (Raise e, snd first) /\
     CyShioTime.get_high_low _ _ GetTimeValue self modelTime
     = (Raise e, snd first)) /\
    (fst (CyShioTime.get_high_low _ _ GetTimeValue self modelTime) = Raise e
     <->
     fst first = Raise e \/
     (returns (fst first) /\
      CyShioTime.station_type _ _ (snd first) = "H"%char /\
      (fst second = Raise e \/
       (returns (fst second) /\
        CyShioTime.fHighLowDataHdl _ _ (CyShioTime.shio _ _ (snd second)) = []
        /\ e = IndexError)))).
Proof.
  intros EbbFloodData HighLowData GetTimeValue self modelTime e first second.
  subst second.
  unfold CyShioTime.get_ebb_flood, CyShioTime.get_high_low,
         CyShioTime.station_type.
  fold first.
  destruct first as [[vs|e1] self1]; cbn [fst snd].
  - split; [| split].
    + destruct (Ascii.eqb_spec
                  (CyShioTime.fStationType _ _ (CyShioTime.shio _ _ self1)) "C")
        as [E | E]; cbn [fst].
      * destruct (CyShioTime.fEbbFloodDataHdl _ _ (CyShioTime.shio _ _ self1))
          as [|r rs]; cbn [CyShioTime.copy_handle].
        -- split.
           ++ intros H. inversion H. right.
              split; [eexists; reflexivity |]. repeat split. exact E.
           ++ intros [H | (_ & _ & _ & ->)]; [discriminate H | reflexivity].
        -- split; [discriminate |].
           intros [H | (_ & _ & H & _)]; discriminate H.
      * split; [discriminate |].
        intros [H | (_ & H & _)]; [discriminate H | contradiction].
    + discriminate.
    + destruct (Ascii.eqb_spec
                  (CyShioTime.fStationType _ _ (CyShioTime.shio _ _ self1)) "H")
        as [E | E]; cbn [fst].
      * destruct (CyShioTime.get_time_value _ _ GetTimeValue self1 modelTime)
          as [[vs2|e2] self2]; cbn [fst snd].
        -- destruct (CyShioTime.fHighLowDataHdl _ _
                       (CyShioTime.shio _ _ self2)) as [|r rs];
             cbn [CyShioTime.copy_handle].
           ++ split.
              ** intros H. inversion H. right.
                 split; [eexists; reflexivity |]. split; [exact E |].
                 right. split; [eexists; reflexivity |]. split; reflexivity.
              ** intros [H | (_ & _ & [H | (_ & _ & ->)])];
                   [discriminate H | discriminate H | reflexivity].
           ++ split; [discriminate |].
              intros [H | (_ & _ & [H | (_ & H & _)])]; discriminate H.
        -- split.
           ++ intros H. inversion H. right.
              split; [eexists; reflexivity |]. split; [exact E |].
              left. reflexivity.
           ++ intros [H | (_ & _ & [H | ([a Ha] & _)])];
                [discriminate H | inversion H; reflexivity | discriminate Ha].
      * split; [discriminate |].
        intros [H | (_ & H & _)]; [discriminate H | contradiction].
  - split; [| split].
    + split.
      * intros H. left. inversion H. reflexivity.
      * intros [H | ([a Ha] & _)]; [inversion H; reflexivity | discriminate Ha].
    + intros H. inversion H. split; reflexivity.
    + split.
      * intros H. left. inversion H. reflexivity.
      * intros [H | ([a Ha] & _)]; [inversion H; reflexivity | discriminate Ha].
Qed.
